(** * The Pearson LaTeX builder

    A model of [source/_exts/pearson/builder.py]: the Sphinx builder
    [PearsonLaTeXBuilder] that writes one LaTeX file per chapter and per
    appendix, and a book file that lists them.

    The builder is a thin layer over its host (Sphinx, docutils, the
    template engine, the file system).  The host is a record of functions
    ([host]); the builder object and the effects it performs are a state
    ([builder]) threaded through a state-and-exception monad ([M]). *)

From Stdlib Require Import ZArith String Ascii List DecimalString Decimal DecimalNat Lia.
From stdpp Require Import base gmap strings list.

Open Scope string_scope.
Open Scope list_scope.

(** ** Python values, strings and paths *)

Module Py.

(** The double quote, a line feed. *)
Definition dquote : string := String (ascii_of_nat 34) "".
Definition nl : string := String (ascii_of_nat 10) "".

(** [str(n)] for an [int]. *)
Definition str_of_nat (n : nat) : string :=
  NilEmpty.string_of_uint (Nat.to_uint n).

Definition str_of_Z (z : Z) : string :=
  NilZero.string_of_int (Z.to_int z).

Fixpoint zeros (k : nat) : string :=
  match k with
  | O => ""
  | S k' => "0" +:+ zeros k'
  end.

(** ['{:0Wd}'.format(n)] for [n >= 0]: the decimal digits of [n], filled
    with zeros on the left up to [width] characters (never truncated). *)
Definition format_0d (width n : nat) : string :=
  let digits := str_of_nat n in
  zeros (width - String.length digits) +:+ digits.

(** A format string ['<prefix>{:0<width>d}'], such as ['chap{:02d}']. *)
Record name_fmt := NameFmt { fmt_prefix : string; fmt_width : nat }.

Definition format (f : name_fmt) (num : nat) : string :=
  fmt_prefix f +:+ format_0d (fmt_width f) num.

(** [s.endswith('/')] *)
Fixpoint ends_with_slash (s : string) : bool :=
  match s with
  | "" => false
  | String c "" => Ascii.eqb c "/"
  | String _ r => ends_with_slash r
  end.

(** [posixpath.join(a, b)] *)
Definition path_join (a b : string) : string :=
  if String.prefix "/" b then b
  else if String.eqb a "" || ends_with_slash a then a +:+ b
  else a +:+ "/" +:+ b.

Fixpoint basename_from (acc p : string) : string :=
  match p with
  | "" => acc
  | String c r =>
      if Ascii.eqb c "/" then basename_from "" r
      else basename_from (acc +:+ String c "") r
  end.

(** [posixpath.basename(p)]: what follows the last slash. *)
Definition path_basename (p : string) : string := basename_from "" p.

(** The values a configuration entry can hold. *)
Inductive pyval :=
| PNone
| PBool (b : bool)
| PInt (z : Z)
| PStr (s : string).

#[global] Instance pyval_eq_dec : EqDecision pyval.
Proof. solve_decision. Defined.

(** [str(v)], as ['%s' % v] prints it. *)
Definition py_str (v : pyval) : string :=
  match v with
  | PNone => "None"
  | PBool true => "True"
  | PBool false => "False"
  | PInt z => str_of_Z z
  | PStr s => s
  end.

(** Truth value of [v] in an [if]. *)
Definition truthy (v : pyval) : bool :=
  match v with
  | PNone => false
  | PBool b => b
  | PInt z => negb (Z.eqb z 0)
  | PStr s => negb (String.eqb s "")
  end.

(** [c in s] *)
Fixpoint contains (c : ascii) (s : string) : bool :=
  match s with
  | "" => false
  | String c' r => Ascii.eqb c c' || contains c r
  end.

Definition hex_digit (n : nat) : ascii :=
  nth n ["0"; "1"; "2"; "3"; "4"; "5"; "6"; "7"; "8"; "9";
         "a"; "b"; "c"; "d"; "e"; "f"]%char "0"%char.

(** One character of [repr(s)]: the quote in use and the backslash are
    escaped, tab, line feed and carriage return have their letters, other
    control characters are written in hexadecimal. *)
Definition repr_char (quote c : ascii) : string :=
  let backslash := ascii_of_nat 92 in
  let code := nat_of_ascii c in
  if Ascii.eqb c quote || Ascii.eqb c backslash
  then String backslash (String c "")
  else if Nat.eqb code 9 then String backslash "t"
  else if Nat.eqb code 10 then String backslash "n"
  else if Nat.eqb code 13 then String backslash "r"
  else if (code <? 32)%nat || Nat.eqb code 127
  then String backslash
         (String "x" (String (hex_digit (code / 16))
                             (String (hex_digit (code mod 16)) "")))
  else String c "".

Fixpoint repr_chars (quote : ascii) (s : string) : string :=
  match s with
  | "" => ""
  | String c r => repr_char quote c +:+ repr_chars quote r
  end.

(** ['%r' % s], [repr(s)] of a string: in single quotes, or in double
    quotes when it holds a single quote and no double quote.  (Bytes above
    127 belong to printable characters and are kept.) *)
Definition py_repr (s : string) : string :=
  let single := ascii_of_nat 39 in
  let double := ascii_of_nat 34 in
  let quote := if contains single s && negb (contains double s)
               then double else single in
  String quote (repr_chars quote s +:+ String quote "").

(** [type(v).__name__] *)
Definition py_type_name (v : pyval) : string :=
  match v with
  | PNone => "NoneType"
  | PBool _ => "bool"
  | PInt _ => "int"
  | PStr _ => "str"
  end.

End Py.
Import Py.

(** ** Document trees (docutils nodes) *)

Module Doctree.

(** Attribute values of an element. *)
Inductive attr :=
| ANone
| AInt (z : Z)
| AStr (s : string).

#[global] Instance attr_eq_dec : EqDecision attr.
Proof. solve_decision. Defined.

#[local] Set Warnings "-register-all".

(** A node is a text leaf or an element with a class name ([tag]), a
    dictionary of attributes and children. *)
Inductive node :=
| Text (s : string)
| Element (tag : string) (attrs : gmap string attr) (children : list node).

Definition pending_xref : string := "pending_xref".
Definition toctree : string := "toctree".

(** [n.traverse(cls)]: [n] and its descendants of class [cls], in document
    order. *)
Fixpoint traverse (cls : string) (n : node) : list node :=
  match n with
  | Text _ => []
  | Element t a cs =>
      (if String.eqb t cls then [n] else []) ++ flat_map (traverse cls) cs
  end.

(** [nodes.emphasis(text, text)]: a text element gets a [Text] child unless
    the text is empty. *)
Definition emphasis (text : string) : node :=
  Element "emphasis" ∅ (if String.eqb text "" then [] else [Text text]).

(** [n.get(key)] *)
Definition get (key : string) (n : node) : attr :=
  match n with
  | Text _ => ANone
  | Element _ a _ => default ANone (a !! key)
  end.

(** [key in n] *)
Definition has_attr (key : string) (n : node) : bool :=
  match n with
  | Text _ => false
  | Element _ a _ => bool_decide (is_Some (a !! key))
  end.

(** [n[key] = v]; document trees are elements. *)
Definition set_item (key : string) (v : attr) (n : node) : node :=
  match n with
  | Text s => Text s
  | Element t a cs => Element t (<[key := v]> a) cs
  end.

(** [n.append(child)] *)
Definition append (child : node) (n : node) : node :=
  match n with
  | Text s => Text s
  | Element t a cs => Element t a (cs ++ [child])
  end.

End Doctree.
Import Doctree.

(** ** Exceptions and results *)

(** A Python exception: its class, its message ([str(err)]) and, for the
    classes that have one, its [lineno] attribute. *)
Record exn := Exn {
  exc_class : string;
  exc_msg : string;
  exc_lineno : option Z
}.

#[global] Instance exn_eq_dec : EqDecision exn.
Proof. solve_decision. Defined.

Definition NoUri : exn := Exn "NoUri" "" None.
Definition KeyError (key : string) : exn := Exn "KeyError" (py_repr key) None.
Definition TypeError (msg : string) : exn := Exn "TypeError" msg None.
Definition AttributeError (msg : string) : exn := Exn "AttributeError" msg None.
Definition SphinxError (msg : string) : exn := Exn "SphinxError" msg None.

Inductive result (A : Type) :=
| Ok (a : A)
| Raise (e : exn).

Arguments Ok {A} a.
Arguments Raise {A} e.

Definition is_ok {A} (r : result A) : bool :=
  match r with Ok _ => true | Raise _ => false end.

(** ** The builder and its world *)

(** The template context built by [write]. *)
Record context := Context {
  title : pyval;
  subtitle : pyval;
  author : pyval;
  chapter_names : list string;
  appendices : list string;
  external_docs : option (list string)   (* [None]: key not set yet *)
}.

(** What [docwriter.write] receives: the tree and the settings set on it. *)
Record unit_doc := UnitDoc {
  u_doctree : node;
  u_contentsname : attr;
  u_docname : string
}.

(** The effects of a run, in the order they happen. *)
Inductive event :=
| EvInfo (msg : string)                      (* self.info *)
| EvWarn (msg : string)                      (* self.warn *)
| EvPyWarning (category msg : string)        (* warnings.warn *)
| EvRender (template : string) (ctx : context) (* self.templates.render *)
| EvWrite (path body : string)               (* FileOutput.write *)
| EvWriteDoc (path : string) (u : unit_doc)  (* docwriter.write *)
| EvCopy (src dst : string)                  (* copyfile *)
| EvCopyStatic (entry outdir : string).      (* copy_static_entry *)

(** [self.config].  Sphinx registers the values below with defaults, except
    [latex_top_sectionlevel]: that attribute name is not a registered value,
    so it is [None] (absent: reading it raises [AttributeError]) unless
    something assigned it.  The [pearson_] values are registered by the
    extension. *)
Record Config := {
  latex_toplevel_sectioning : pyval;
  latex_top_sectionlevel : option pyval;
  latex_use_parts : pyval;
  pearson_chapters : list string;
  latex_appendices : list string;
  latex_logo : pyval;
  latex_additional_files : list string;
  pearson_title : pyval;
  pearson_subtitle : pyval;
  pearson_author : pyval;
  pearson_theme : string;
  pearson_theme_path : list string;
  pearson_theme_options : gmap string pyval
}.

Record Theme := { get_dirchain : list string }.

(** The builder object, with the events performed so far.  [theme] is a
    class attribute, [None] until [init_templates] assigns it.  [titles] and
    [theme_options] are attributes that neither the class nor Sphinx'
    [Builder] defines: they are [None] (absent: reading the attribute raises
    [AttributeError]) until something assigns them. *)
Record builder := Builder {
  config : Config;
  docnames : gset string;
  document_data : list string;
  titles : option (list (string * string));
  images : list (string * string);
  theme : option Theme;
  theme_options : option (gmap string pyval);
  srcdir : string;
  confdir : string;
  outdir : string;
  trace : list event
}.

(** The host: Sphinx' environment and utilities, docutils, the template
    bridge, the file system.  A function that can raise returns a
    [result]. *)
Record host := {
  (* self.env.all_docs, as the set of its keys *)
  all_docs : gset string;
  get_doctree : string -> result node;
  (* self.templates.render(template_name, context) *)
  templates_render : string -> context -> result string;
  (* inline_all_toctrees(builder, docnameset, docname, tree, ...): the tree
     with the toctrees inlined, and the set object as the call leaves it *)
  inline_all_toctrees : gset string -> string -> node -> gset string * node;
  (* self.env.resolve_references(tree, fromdocname, builder); the builder is
     seen through its get_relative_uri *)
  resolve_references :
    (string -> string -> result string) -> string -> node -> node;
  (* self.post_process_images(doctree): updates self.images and the tree *)
  post_process_images :
    node -> list (string * string) -> list (string * string) * node;
  (* highlighter.get_stylesheet() *)
  get_stylesheet : string;
  (* sphinx.locale._ *)
  gettext : string -> string;
  bold : string -> string;
  darkgreen : string -> string;
  isfile : string -> bool;
  (* copyfile(src, dst): [Some e] when it raises *)
  copyfile : string -> string -> option exn;
  (* _package_dir, the directory of the extension *)
  package_dir : string;
  (* Theme.init_themes(confdir, theme_path, warn=self.warn): the warnings it
     logs, and [Some e] when it raises *)
  init_themes : string -> list string -> list string * option exn;
  (* Theme(themename, warn=self.warn): the warnings it logs and the theme *)
  new_theme : string -> list string * result Theme;
  (* self.create_template_bridge(): [Some e] when it raises *)
  create_template_bridge : option exn;
  (* self.templates.init(self, self.theme): [Some e] when it raises *)
  templates_init : Theme -> option exn
}.

(** *** Field updates *)

Definition set_config (c : Config) (b : builder) : builder :=
  Builder c (docnames b) (document_data b) (titles b) (images b) (theme b)
          (theme_options b) (srcdir b) (confdir b) (outdir b) (trace b).

Definition set_docnames (s : gset string) (b : builder) : builder :=
  Builder (config b) s (document_data b) (titles b) (images b) (theme b)
          (theme_options b) (srcdir b) (confdir b) (outdir b) (trace b).

Definition set_document_data (l : list string) (b : builder) : builder :=
  Builder (config b) (docnames b) l (titles b) (images b) (theme b)
          (theme_options b) (srcdir b) (confdir b) (outdir b) (trace b).

Definition set_images (l : list (string * string)) (b : builder) : builder :=
  Builder (config b) (docnames b) (document_data b) (titles b) l (theme b)
          (theme_options b) (srcdir b) (confdir b) (outdir b) (trace b).

Definition set_trace (t : list event) (b : builder) : builder :=
  Builder (config b) (docnames b) (document_data b) (titles b) (images b)
          (theme b) (theme_options b) (srcdir b) (confdir b) (outdir b) t.

Definition set_theme (t : option Theme) (b : builder) : builder :=
  Builder (config b) (docnames b) (document_data b) (titles b) (images b)
          t (theme_options b) (srcdir b) (confdir b) (outdir b) (trace b).

Definition set_theme_options (o : option (gmap string pyval)) (b : builder)
    : builder :=
  Builder (config b) (docnames b) (document_data b) (titles b) (images b)
          (theme b) o (srcdir b) (confdir b) (outdir b) (trace b).

(** ** The monad: builder state and exceptions *)

Definition M (A : Type) : Type := builder -> builder * result A.

Definition ret {A} (a : A) : M A := fun b => (b, Ok a).

Definition raise {A} (e : exn) : M A := fun b => (b, Raise e).

Definition bind {A B} (m : M A) (k : A -> M B) : M B :=
  fun b =>
    match m b with
    | (b', Ok a) => k a b'
    | (b', Raise e) => (b', Raise e)
    end.

Notation "x <~ m ;; k" := (bind m (fun x => k))
  (at level 100, m at next level, right associativity).
Notation "m ;;; k" := (bind m (fun _ => k))
  (at level 100, right associativity).

(** A host call that can raise. *)
Definition lift {A} (r : result A) : M A := fun b => (b, r).

(** Reading and updating the builder. *)
Definition gets {A} (f : builder -> A) : M A := fun b => (b, Ok (f b)).
Definition modify (f : builder -> builder) : M unit := fun b => (f b, Ok tt).

Definition emit (e : event) : M unit :=
  modify (fun b => set_trace (trace b ++ [e]) b).

Definition info (msg : string) : M unit := emit (EvInfo msg).
Definition warn (msg : string) : M unit := emit (EvWarn msg).

(** [for x in l: body(x)] *)
Fixpoint for_each {A} (l : list A) (body : A -> M unit) : M unit :=
  match l with
  | [] => ret tt
  | x :: l' => body x ;;; for_each l' body
  end.

(** [if cond: body] *)
Definition when (cond : bool) (body : M unit) : M unit :=
  if cond then body else ret tt.

(** Exceptions in pure host-side computations. *)
Definition rbind {A B} (r : result A) (k : A -> result B) : result B :=
  match r with
  | Ok a => k a
  | Raise e => Raise e
  end.

Notation "'try' x := r 'in' k" := (rbind r (fun x => k))
  (at level 100, x name, r at next level, right associativity).

Fixpoint rmap_all {A B} (f : A -> result B) (l : list A) : result (list B) :=
  match l with
  | [] => Ok []
  | x :: l' => try y := f x in try ys := rmap_all f l' in Ok (y :: ys)
  end.

Definition set_latex_top_sectionlevel (v : option pyval) (c : Config) : Config :=
  {| latex_toplevel_sectioning := latex_toplevel_sectioning c;
     latex_top_sectionlevel := v;
     latex_use_parts := latex_use_parts c;
     pearson_chapters := pearson_chapters c;
     latex_appendices := latex_appendices c;
     latex_logo := latex_logo c;
     latex_additional_files := latex_additional_files c;
     pearson_title := pearson_title c;
     pearson_subtitle := pearson_subtitle c;
     pearson_author := pearson_author c;
     pearson_theme := pearson_theme c;
     pearson_theme_path := pearson_theme_path c;
     pearson_theme_options := pearson_theme_options c |}.

(** ** The builder's methods *)

Section PearsonLaTeXBuilder.

Variable h : host.

(** *** [check_options] *)

(** [self.config.latex_top_sectionlevel]: Sphinx' [Config.__getattr__]
    raises for a name that is no config value. *)
Definition read_latex_top_sectionlevel : M pyval :=
  c <~ gets config ;;
  match latex_top_sectionlevel c with
  | Some v => ret v
  | None =>
      raise (AttributeError "No such config value: latex_top_sectionlevel")
  end.

Definition check_options : M unit :=
  c <~ gets config ;;
  when (negb (bool_decide
                (latex_toplevel_sectioning c
                   ∈ [PNone; PStr "part"; PStr "chapter"; PStr "section"])))
    (v <~ read_latex_top_sectionlevel ;;
     warn ("invalid latex_toplevel_sectioning, ignored: " +:+ py_str v) ;;;
     modify (fun b =>
               set_config (set_latex_top_sectionlevel (Some PNone) (config b)) b))
  ;;;
  c <~ gets config ;;
  when (truthy (latex_use_parts c))
    (emit (EvPyWarning "DeprecationWarning"
             ("latex_use_parts will be removed at Sphinx-1.5. " +:+
              "Use latex_toplevel_sectioning instead.")) ;;;
     when (truthy (latex_toplevel_sectioning c))
       (warn "latex_use_parts conflicts with latex_toplevel_sectioning, ignored.")).

(** *** [get_outdated_docs], [get_theme_config] *)

Definition get_outdated_docs : string := "all documents".

Definition get_theme_config (b : builder) : string * gmap string pyval :=
  (pearson_theme (config b), pearson_theme_options (config b)).

(** *** [init_templates] *)

(** A host call that was given [warn=self.warn]: its warnings reach the
    log, then it returns or raises. *)
Definition warning [A] (call : list string * result A) : M A :=
  for_each (fst call) warn ;;;
  lift (snd call).

(** A host call that returns nothing. *)
Definition run_host (e : option exn) : result unit :=
  match e with
  | Some e => Raise e
  | None => Ok tt
  end.

Definition init_templates : M unit :=
  self <~ gets id ;;
  warning (let call := init_themes h (confdir self)
                         (path_join (package_dir h) "themes"
                            :: pearson_theme_path (config self)) in
           (fst call, run_host (snd call))) ;;;
  self <~ gets id ;;
  let (themename, themeoptions) := get_theme_config self in
  th <~ warning (new_theme h themename) ;;
  modify (set_theme (Some th)) ;;;
  (* a copy of a dict has the same entries *)
  modify (set_theme_options (Some themeoptions)) ;;;
  lift (run_host (create_template_bridge h)) ;;;
  lift (run_host (templates_init h th)).

(** *** [init]

    [texescape.init] fills the escaping tables of its own module; it reads
    and changes nothing of the builder. *)
Definition init : M unit :=
  info "loading builder from Pearson extension" ;;;
  modify (set_docnames ∅) ;;;
  modify (set_document_data []) ;;;
  init_templates ;;;
  check_options.

(** *** [get_target_uri], [get_relative_uri] *)

Definition get_target_uri (b : builder) (docname : string) : result string :=
  if bool_decide (docname ∈ docnames b) then Ok ("%" +:+ docname)
  else Raise NoUri.

Definition get_relative_uri (b : builder) (from_ to : string) : result string :=
  (* ignore source path *)
  get_target_uri b to.

(** *** [init_chapters] *)

Definition init_chapters : M unit :=
  chapters <~ gets (fun b => pearson_chapters (config b)) ;;
  match chapters with
  | [] =>
      warn ("no " +:+ dquote +:+ "pearson_chapters" +:+ dquote +:+
            " config value found; no documents will be written")
  | _ =>
      for_each chapters (fun chap =>
        if bool_decide (chap ∈ all_docs h)
        then modify (fun b => set_document_data (document_data b ++ [chap]) b)
        else warn (dquote +:+ "pearson_chapters" +:+ dquote +:+
                   " config value references unknown document " +:+ chap))
  end.

(** *** [_render_template]

    The [FileOutput] opens its file when it is written to.  In the handler
    the message is formatted first, and that reads [err.lineno]. *)
Definition _render_template (template_name file_name : string)
    (ctx : context) : M string :=
  info ("writing " +:+ file_name) ;;;
  emit (EvRender template_name ctx) ;;;
  match templates_render h template_name ctx with
  | Ok body =>
      emit (EvWrite file_name body) ;;;
      ret body
  | Raise err =>
      match exc_lineno err with
      | Some lineno =>
          info (bold h ("Failed to render template " +:+ template_name +:+
                        ": " +:+ exc_msg err +:+ " at " +:+ str_of_Z lineno)) ;;;
          raise err
      | None =>
          raise (AttributeError (py_repr (exc_class err) +:+
                                 " object has no attribute 'lineno'"))
      end
  end.

(** *** [_write_pygments_stylesheet] *)

Definition pygments_header : string :=
  nl +:+ "%% generated by Pearson extension for Sphinx" +:+ nl +:+
  "%%" +:+ nl +:+
  "%% These are the code syntax-highlighting directives" +:+ nl +:+
  "%% produced by pygments using the theme for the" +:+ nl +:+
  "%% document" +:+ nl +:+
  "%%" +:+ nl.

Definition _write_pygments_stylesheet (file_name : string) : M string :=
  info ("writing " +:+ file_name) ;;;
  let body := pygments_header +:+ get_stylesheet h in
  emit (EvWrite file_name body) ;;;
  ret body.

(** *** [get_contentsname] *)

Fixpoint first_caption (toctrees : list node) : attr :=
  match toctrees with
  | [] => ANone
  | t :: rest =>
      if has_attr "caption" t then get "caption" t else first_caption rest
  end.

Definition get_contentsname (indexfile : string) : M attr :=
  tree <~ lift (get_doctree h indexfile) ;;
  ret (first_caption (traverse toctree tree)).

(** *** [assemble_doctree] *)

(** [docname.startswith(subdir)]; only a [str] has the method. *)
Definition startswith (docname : attr) (subdir : string) : result bool :=
  match docname with
  | AStr s => Ok (String.prefix subdir s)
  | AInt _ => Raise (AttributeError "'int' object has no attribute 'startswith'")
  | ANone =>
      Raise (AttributeError "'NoneType' object has no attribute 'startswith'")
  end.

(** The [for subdir, title in self.titles] loop: the nodes appended for the
    first entry whose [subdir] starts [docname], nothing when the loop ends
    without a [break]. *)
Fixpoint title_suffix (docname : attr) (ts : list (string * string))
  : result (list node) :=
  match ts with
  | [] => Ok []
  | (subdir, title) :: rest =>
      try hit := startswith docname subdir in
      if (hit : bool)
      then Ok [Text (gettext h " (in "); emphasis title; Text ")"]
      else title_suffix docname rest
  end.

(** [str(v)] of an attribute value, as [nodes.Text(v)] holds it. *)
Definition attr_str (v : attr) : string :=
  match v with
  | ANone => "None"
  | AInt z => str_of_Z z
  | AStr s => s
  end.

(** [nodes.emphasis(sectname, sectname)] *)
Definition emphasis_of (sectname : attr) : node :=
  match sectname with
  | AStr s => emphasis s
  | _ => Element "emphasis" ∅ [Text (attr_str sectname)]
  end.

(** [pendingnode[key]] *)
Definition getitem (key : string) (n : node) : result attr :=
  match n with
  | Text _ => Raise (TypeError "string indices must be integers")
  | Element _ a _ =>
      match a !! key with
      | Some v => Ok v
      | None => Raise (KeyError key)
      end
  end.

(** [self.titles]: nothing in the builder assigns the attribute, and
    neither the class nor Sphinx' [Builder] defines it. *)
Definition no_titles : exn :=
  AttributeError "'PearsonLaTeXBuilder' object has no attribute 'titles'".

Definition read_titles (ts : option (list (string * string)))
  : result (list (string * string)) :=
  match ts with
  | Some l => Ok l
  | None => Raise no_titles
  end.

(** The body of the loop over the pending markers, up to [replace_self]:
    the nodes that take the marker's place.  [ts] is the builder's [titles]
    attribute, read after the two keys of the marker. *)
Definition pending_newnodes (ts : option (list (string * string)))
    (pendingnode : node) : result (list node) :=
  try docname := getitem "refdocname" pendingnode in
  try sectname := getitem "refsectname" pendingnode in
  let newnodes := [emphasis_of sectname] in
  try titles := read_titles ts in
  try suffix := title_suffix docname titles in
  Ok (newnodes ++ suffix).

(** What a node leaves in its parent's child list once every marker has
    been replaced: [replace_self] splices the new nodes where the marker
    was.  (docutils also moves the marker's ids, classes and names to the
    first new node; elements carry no such lists here.) *)
Fixpoint replace_pending (ts : option (list (string * string))) (n : node)
  : list node :=
  match n with
  | Text s => [Text s]
  | Element t a cs =>
      if String.eqb t pending_xref
      then match pending_newnodes ts n with
           | Ok newnodes => newnodes
           | Raise _ => [n]
           end
      else [Element t a (flat_map (replace_pending ts) cs)]
  end.

(** [for pendingnode in largetree.traverse(addnodes.pending_xref): ...].
    The list of markers is taken before the loop, so a marker below another
    marker is still visited (and can raise) after its ancestor has left the
    tree.  A marker at the root has no parent to replace it in. *)
Definition resolve_pending (ts : option (list (string * string)))
    (largetree : node) : result node :=
  match largetree with
  | Text s => Ok (Text s)
  | Element t a cs =>
      if String.eqb t pending_xref
      then
        try newnodes := pending_newnodes ts largetree in
        Raise (AttributeError "'NoneType' object has no attribute 'replace'")
      else
        try visited :=
          rmap_all (pending_newnodes ts) (flat_map (traverse pending_xref) cs) in
        Ok (Element t a (flat_map (replace_pending ts) cs))
  end.

(** The fresh document of the [toctree_only] branch. *)
Definition toctree_document (tree : node) : node :=
  Element "document" {[ "source" := AStr "<latex output>" ]}
    [Element "section" ∅
       (Element "title" ∅ [Text "<Set title in conf.py>"]
          :: traverse toctree tree)].

Fixpoint append_appendices (apps : list string) (largetree : node) : M node :=
  match apps with
  | [] => ret largetree
  | docname :: rest =>
      appendix <~ lift (get_doctree h docname) ;;
      append_appendices rest
        (append (set_item "docname" (AStr docname) appendix) largetree)
  end.

Definition assemble_doctree (indexfile : string) (toctree_only : bool)
    (apps : list string) : M node :=
  modify (set_docnames (list_to_set (indexfile :: apps))) ;;;
  info (darkgreen h indexfile +:+ " ") ;;;
  tree <~ lift (get_doctree h indexfile) ;;
  let tree := set_item "docname" (AStr indexfile) tree in
  let tree := if toctree_only then toctree_document tree else tree in
  ds <~ gets docnames ;;
  let inlined := inline_all_toctrees h ds indexfile tree in
  modify (set_docnames (fst inlined)) ;;;
  let largetree := set_item "docname" (AStr indexfile) (snd inlined) in
  largetree <~ append_appendices apps largetree ;;
  info "" ;;;
  info "resolving references..." ;;;
  self <~ gets (fun b => b) ;;
  let largetree :=
    resolve_references h (get_relative_uri self) indexfile largetree in
  (* resolve :ref:s to distant tex files *)
  lift (resolve_pending (titles self) largetree).

(** *** [write] *)

(** [tocdepth] as [process_doc] computes it; comparing anything but an
    [int] with [0] raises. *)
Definition tocdepth_of (toctrees : list node) : result attr :=
  match toctrees with
  | [] => Ok ANone
  | first :: _ =>
      match get "maxdepth" first with
      | AInt z => Ok (if (0 <? z)%Z then AInt z else ANone)
      | ANone =>
          Raise (TypeError
            "'>' not supported between instances of 'NoneType' and 'int'")
      | AStr _ =>
          Raise (TypeError
            "'>' not supported between instances of 'str' and 'int'")
      end
  end.

Definition process_doc (name_fmt : name_fmt) (num : nat) (docname : string)
  : M string :=
  let name := format name_fmt num in
  out <~ gets outdir ;;
  let destination := path_join out (name +:+ ".tex") in
  info ("writing " +:+ docname +:+ " to " +:+ name +:+ ".tex ... ") ;;;
  doc <~ lift (get_doctree h docname) ;;
  tocdepth <~ lift (tocdepth_of (traverse toctree doc)) ;;
  doctree <~ assemble_doctree docname false [] ;;
  let doctree := set_item "tocdepth" tocdepth doctree in
  imgs <~ gets images ;;
  let processed := post_process_images h doctree imgs in
  modify (set_images (fst processed)) ;;;
  let doctree := snd processed in
  contentsname <~ get_contentsname docname ;;
  emit (EvWriteDoc destination (UnitDoc doctree contentsname docname)) ;;;
  info "done" ;;;
  ret name.

(** [for num, docname in enumerate(docs, num): names.append(process_doc(...))] *)
Fixpoint process_docs (name_fmt : name_fmt) (num : nat) (docs : list string)
    (names : list string) : M (list string) :=
  match docs with
  | [] => ret names
  | docname :: rest =>
      name <~ process_doc name_fmt num docname ;;
      process_docs name_fmt (S num) rest (names ++ [name])
  end.

Definition write : M unit :=
  init_chapters ;;;
  out <~ gets outdir ;;
  _write_pygments_stylesheet (path_join out "pygments.sty") ;;;
  (* Build up a context object for the templates. *)
  c <~ gets config ;;
  let global_context names apps ext :=
    Context (pearson_title c) (pearson_subtitle c) (pearson_author c)
            names apps ext in
  _render_template "half-title.tex" (path_join out "half-title.tex")
    (global_context [] [] None) ;;;
  _render_template "title.tex" (path_join out "title.tex")
    (global_context [] [] None) ;;;
  (* First generate the chapters *)
  data <~ gets document_data ;;
  let chap_name_fmt :=
    if (100 <=? length data)%nat then NameFmt "chap" 3 else NameFmt "chap" 2 in
  chapter_names <~ process_docs chap_name_fmt 1 data [] ;;
  (* Then any appendices *)
  let app_name_fmt :=
    if (100 <=? length (latex_appendices c))%nat
    then NameFmt "app" 3 else NameFmt "app" 2 in
  apps <~ process_docs app_name_fmt 1 (latex_appendices c) [] ;;
  (* Finally the main book template *)
  _render_template "book.tex" (path_join out "book.tex")
    (global_context chapter_names apps (Some (chapter_names ++ apps)%list)) ;;;
  ret tt.

(** *** [finish] *)

Definition copy (src dst : string) : M unit :=
  emit (EvCopy src dst) ;;;
  match copyfile h src dst with
  | Some e => raise e
  | None => ret tt
  end.

Definition copy_images : M unit :=
  imgs <~ gets images ;;
  when (negb (bool_decide (imgs = [])))
    (info (bold h "copying images...") ;;;
     for_each imgs (fun entry =>
       info (" " +:+ fst entry) ;;;
       self <~ gets (fun b => b) ;;
       copy (path_join (srcdir self) (fst entry))
            (path_join (outdir self) (snd entry))) ;;;
     info "").

Definition copy_additional_files : M unit :=
  files <~ gets (fun b => latex_additional_files (config b)) ;;
  when (negb (bool_decide (files = [])))
    (info (bold h "copying additional files...") ;;;
     for_each files (fun filename =>
       info (" " +:+ filename) ;;;
       self <~ gets (fun b => b) ;;
       copy (path_join (confdir self) filename)
            (path_join (outdir self) (path_basename filename))) ;;;
     info "").

(** the logo is handled differently *)
Definition copy_logo : M unit :=
  self <~ gets (fun b => b) ;;
  let logo := latex_logo (config self) in
  when (truthy logo)
    match logo with
    | PStr latex_logo =>
        let logobase := path_basename latex_logo in
        let logotarget := path_join (outdir self) logobase in
        if negb (isfile h (path_join (confdir self) latex_logo))
        then raise (SphinxError ("logo file " +:+ py_repr latex_logo +:+
                                 " does not exist"))
        else when (negb (isfile h logotarget))
               (copy (path_join (confdir self) latex_logo) logotarget)
    | _ => raise (TypeError ("expected str, bytes or os.PathLike object, not "
                             +:+ py_type_name logo))
    end.

Definition copy_static_files : M unit :=
  self <~ gets (fun b => b) ;;
  match theme self with
  | Some th =>
      info (bold h "copying static files...") ;;;
      let themeentries :=
        map (fun themepath => path_join themepath "static")
            (rev (get_dirchain th)) in
      for_each themeentries (fun entry =>
        info (" " +:+ entry) ;;;
        emit (EvCopyStatic entry (outdir self)))
  | None => ret tt
  end.

Definition finish : M unit :=
  copy_images ;;;
  copy_additional_files ;;;
  copy_logo ;;;
  (* finally, copy over theme-supplied static files *)
  copy_static_files ;;;
  info "done".

End PearsonLaTeXBuilder.

(** ** A small site, to run the builder on *)

Module Demo.

(** A reference to a section of a document of the library ([lib/os]),
    as the host leaves it pending. *)
Definition marker : node :=
  Element pending_xref
    {[ "refdocname" := AStr "lib/os"; "refsectname" := AStr "Files" ]}
    [Text "os"].

(** A document with a table of contents and such a reference. *)
Definition doc_with_marker : node :=
  Element "document" ∅
    [Element toctree {[ "maxdepth" := AInt 2; "caption" := AStr "Contents" ]} [];
     Element "paragraph" ∅ [Text "see "; marker]].

(** Every known document has a table of contents; [xref] also has a
    pending reference. *)
Definition doc_of (docname : string) : node :=
  if String.eqb docname "xref" then doc_with_marker
  else
    Element "document" ∅
      [Element toctree {[ "maxdepth" := AInt 2; "caption" := AStr "Contents" ]} [];
       Element "paragraph" ∅ [Text "see "; emphasis "Files"]].

Definition known : gset string := {[ "intro"; "threads"; "api"; "xref" ]}.

Definition site : host := {|
  all_docs := known;
  get_doctree := fun d =>
    if bool_decide (d ∈ known) then Ok (doc_of d)
    else Raise (Exn "IOError" ("No such file or directory: " +:+ d) None);
  templates_render := fun name ctx =>
    Ok ("<" +:+ name +:+ ">");
  inline_all_toctrees := fun ds d t => (ds, t);
  resolve_references := fun uri from t => t;
  post_process_images := fun t imgs => (imgs, t);
  get_stylesheet := "% style";
  gettext := fun s => s;
  bold := fun s => s;
  darkgreen := fun s => s;
  isfile := fun p => String.eqb p "conf/cover.png";
  copyfile := fun s d => None;
  package_dir := "ext/pearson";
  init_themes := fun confdir theme_path => ([], None);
  new_theme := fun name =>
    ([], Ok {| get_dirchain := ["themes/" +:+ name; "themes/basic"] |});
  create_template_bridge := None;
  templates_init := fun th => None
|}.

(** The same site with a template engine that fails on [book.tex] with an
    error that has no line number (an undefined variable). *)
Definition site_undefined : host := {|
  all_docs := known;
  get_doctree := get_doctree site;
  templates_render := fun name ctx =>
    if String.eqb name "book.tex"
    then Raise (Exn "UndefinedError" "'edition' is undefined" None)
    else Ok ("<" +:+ name +:+ ">");
  inline_all_toctrees := inline_all_toctrees site;
  resolve_references := resolve_references site;
  post_process_images := post_process_images site;
  get_stylesheet := get_stylesheet site;
  gettext := gettext site;
  bold := bold site;
  darkgreen := darkgreen site;
  isfile := isfile site;
  copyfile := copyfile site;
  package_dir := package_dir site;
  init_themes := init_themes site;
  new_theme := new_theme site;
  create_template_bridge := create_template_bridge site;
  templates_init := templates_init site
|}.

Definition conf (sectioning : pyval) (chapters apps : list string)
    (logo : pyval) : Config := {|
  latex_toplevel_sectioning := sectioning;
  latex_top_sectionlevel := None;
  latex_use_parts := PBool false;
  pearson_chapters := chapters;
  latex_appendices := apps;
  latex_logo := logo;
  latex_additional_files := ["extra/preamble.tex"];
  pearson_title := PStr "The Book";
  pearson_subtitle := PStr "By Example";
  pearson_author := PStr "A. Writer";
  pearson_theme := "pearson";
  pearson_theme_path := ["_themes"];
  pearson_theme_options := {[ "pointsize" := PStr "10pt" ]}
|}.

(** A builder as [init] leaves it, with one image collected since. *)
Definition fresh (c : Config) : builder :=
  Builder c ∅ [] None [("fig.png", "fig.png")]
          (Some {| get_dirchain := ["themes/pearson"; "themes/basic"] |})
          (Some (pearson_theme_options c)) "src" "conf" "out" [].

End Demo.

(** ** What a run is observed by *)

(** What a run leaves behind: files, units and template renderings. *)
Inductive output :=
| OutFile (path : string)
| OutUnit (path docname : string)
| OutRender (template : string) (ctx : context).

Definition output_of (e : event) : list output :=
  match e with
  | EvWrite path _ => [OutFile path]
  | EvWriteDoc path u => [OutUnit path (u_docname u)]
  | EvRender template ctx => [OutRender template ctx]
  | _ => []
  end.

Definition outputs (tr : list event) : list output := flat_map output_of tr.

(** The theme's static entries copied so far. *)
Definition static_copies (tr : list event) : list (string * string) :=
  flat_map (fun e => match e with
                     | EvCopyStatic entry out => [(entry, out)]
                     | _ => []
                     end) tr.

(** The values [check_options] accepts for [latex_toplevel_sectioning]. *)
Definition valid_sectioning : list pyval :=
  [PNone; PStr "part"; PStr "chapter"; PStr "section"].

(** The steps of [write] after [init_chapters] leave these fields alone,
    and only add to the trace. *)
Definition same_setup (b b' : builder) : Prop :=
  config b' = config b /\ outdir b' = outdir b /\ titles b' = titles b
  /\ document_data b' = document_data b
  /\ exists later, trace b' = trace b ++ later.

(** [performs m b good plan Q]: run from [b], the step [m] succeeds exactly
    when [good] holds; when it succeeds it has added [plan] to the outputs
    and its result satisfies [Q]; when it raises it has added a part of
    [plan] only, with something left undone. *)
Definition performs {A} (m : M A) (b : builder) (good : bool)
    (plan : list output) (Q : A -> Prop) : Prop :=
  same_setup b (fst (m b))
  /\ is_ok (snd (m b)) = good
  /\ match snd (m b) with
     | Ok a => outputs (trace (fst (m b))) = outputs (trace b) ++ plan /\ Q a
     | Raise _ =>
         exists done rest,
           plan = done ++ rest /\ rest <> []
           /\ outputs (trace (fst (m b))) = outputs (trace b) ++ done
     end.

(** What the copies of images and additional files keep. *)
Definition keeps (b b' : builder) : Prop :=
  config b' = config b /\ confdir b' = confdir b /\ outdir b' = outdir b
  /\ static_copies (trace b') = static_copies (trace b).

(** The error for a logo that is configured and missing. *)
Definition logo_error (latex_logo : string) : exn :=
  SphinxError ("logo file " +:+ py_repr latex_logo +:+ " does not exist").

(** What [assemble_doctree] hands to the inliner: the root's tree, or the
    fresh document holding its toctrees. *)
Definition inliner_input (indexfile : string) (toctree_only : bool)
    (tree : node) : node :=
  let tree := set_item "docname" (AStr indexfile) tree in
  if toctree_only then toctree_document tree else tree.

(** The URIs the host gets from [get_relative_uri] while [docnames] is [ds]. *)
Definition uri_within (ds : gset string) (from_ to : string) : result string :=
  if bool_decide (to ∈ ds) then Ok ("%" +:+ to) else Raise NoUri.

(** A marker as the host leaves it pending: it names its target document
    and section. *)
Definition marker_ok (n : node) : bool :=
  match n with
  | Text _ => false
  | Element _ a _ =>
      match a !! "refdocname", a !! "refsectname" with
      | Some (AStr _), Some (AStr _) => true
      | _, _ => false
      end
  end.

(** *** The plan of a run of [write] *)

Definition unit_path (out : string) (f : name_fmt) (num : nat) : string :=
  path_join out (format f num +:+ ".tex").

(** The units a loop of [process_doc] writes for [docs], numbered from
    [num]. *)
Fixpoint unit_outputs (out : string) (f : name_fmt) (num : nat)
    (docs : list string) : list output :=
  match docs with
  | [] => []
  | docname :: rest =>
      OutUnit (unit_path out f num) docname :: unit_outputs out f (S num) rest
  end.

Definition chap_name_fmt (data : list string) : name_fmt :=
  if (100 <=? length data)%nat then NameFmt "chap" 3 else NameFmt "chap" 2.

Definition app_name_fmt (apps : list string) : name_fmt :=
  if (100 <=? length apps)%nat then NameFmt "app" 3 else NameFmt "app" 2.

(** The names [process_doc] returns for [docs]: [1 .. len(docs)] in the
    format [f]. *)
Definition unit_names (f : name_fmt) (docs : list string) : list string :=
  map (format f) (seq 1 (length docs)).

Definition front_context (c : Config) : context :=
  Context (pearson_title c) (pearson_subtitle c) (pearson_author c) [] [] None.

Definition book_context (c : Config) (data : list string) : context :=
  let names := unit_names (chap_name_fmt data) data in
  let apps := unit_names (app_name_fmt (latex_appendices c)) (latex_appendices c) in
  Context (pearson_title c) (pearson_subtitle c) (pearson_author c)
          names apps (Some (names ++ apps)).

Definition front_matter (b : builder) : list output :=
  [OutFile (path_join (outdir b) "pygments.sty");
   OutRender "half-title.tex" (front_context (config b));
   OutFile (path_join (outdir b) "half-title.tex");
   OutRender "title.tex" (front_context (config b));
   OutFile (path_join (outdir b) "title.tex")].

Definition chapter_units (b : builder) (data : list string) : list output :=
  unit_outputs (outdir b) (chap_name_fmt data) 1 data.

Definition appendix_units (b : builder) : list output :=
  let apps := latex_appendices (config b) in
  unit_outputs (outdir b) (app_name_fmt apps) 1 apps.

Definition book (b : builder) (data : list string) : list output :=
  [OutRender "book.tex" (book_context (config b) data);
   OutFile (path_join (outdir b) "book.tex")].

(** Everything a complete run of [write] produces, in order, when [data]
    are the chapters kept by [init_chapters]. *)
Definition plan (b : builder) (data : list string) : list output :=
  front_matter b ++ chapter_units b data ++ appendix_units b ++ book b data.

(** *** What depends on the host *)

Section Host.

Variable h : host.

(** [chap in self.env.all_docs] *)
Definition known (chap : string) : bool := bool_decide (chap ∈ all_docs h).

Definition unknown_chapter_warning (chap : string) : event :=
  EvWarn (dquote +:+ "pearson_chapters" +:+ dquote +:+
          " config value references unknown document " +:+ chap).

Definition no_chapters_warning : event :=
  EvWarn ("no " +:+ dquote +:+ "pearson_chapters" +:+ dquote +:+
          " config value found; no documents will be written").

(** The warnings of [init_chapters]: one for an empty list, else one for
    each unknown identifier, in the order of the list. *)
Definition chapter_warnings (chapters : list string) : list event :=
  match chapters with
  | [] => [no_chapters_warning]
  | _ => map unknown_chapter_warning
             (List.filter (fun chap => negb (known chap)) chapters)
  end.

(** The handler's message, for an error that has a line number. *)
Definition failure_message (template_name : string) (err : exn) (lineno : Z)
  : string :=
  bold h ("Failed to render template " +:+ template_name +:+ ": " +:+
          exc_msg err +:+ " at " +:+ str_of_Z lineno).

(** The template engine accepts the template with this context. *)
Definition renders (template_name : string) (ctx : context) : bool :=
  is_ok (templates_render h template_name ctx).

(** The tree the loop over the pending markers works on in
    [assemble_doctree docname False []], for a document whose own tree is
    [doc]: inlined, and with the references the host can resolve
    resolved. *)
Definition resolved_tree (docname : string) (doc : node) : node :=
  let tree := set_item "docname" (AStr docname) doc in
  let inlined := inline_all_toctrees h (list_to_set [docname]) docname tree in
  let largetree := set_item "docname" (AStr docname) (snd inlined) in
  resolve_references h (uri_within (fst inlined)) docname largetree.

(** The tree [assemble_doctree docname False []] returns for a document
    whose own tree is [doc]. *)
Definition unit_tree (ts : option (list (string * string))) (docname : string)
    (doc : node) : result node :=
  let tree := set_item "docname" (AStr docname) doc in
  let inlined := inline_all_toctrees h (list_to_set [docname]) docname tree in
  let largetree := set_item "docname" (AStr docname) (snd inlined) in
  resolve_pending h ts
    (resolve_references h (uri_within (fst inlined)) docname largetree).

(** The host can load the document, its first toctree has a depth, and the
    loop over the markers left pending in its tree does not raise. *)
Definition doc_ok (ts : option (list (string * string))) (docname : string)
  : bool :=
  match get_doctree h docname with
  | Ok doc =>
      is_ok (tocdepth_of (traverse toctree doc)) && is_ok (unit_tree ts docname doc)
  | Raise _ => false
  end.

(** The host carries the run through: the templates render and every unit
    can be assembled. *)
Definition host_ok (b : builder) (data : list string) : bool :=
  renders "half-title.tex" (front_context (config b))
  && (renders "title.tex" (front_context (config b))
      && (forallb (doc_ok (titles b)) data
          && (forallb (doc_ok (titles b)) (latex_appendices (config b))
              && renders "book.tex" (book_context (config b) data)))).

(** The text that follows the section name: the title of the first entry of
    the title mapping whose prefix starts the target docname, if any. *)
Definition in_title (ts : list (string * string)) (docname : string)
  : list node :=
  match find (fun entry => String.prefix (fst entry) docname) ts with
  | Some entry => [Text (gettext h " (in "); emphasis (snd entry); Text ")"]
  | None => []
  end.

(** An error of the host's [copyfile]. *)
Definition copy_error (e : exn) : Prop :=
  exists src dst, copyfile h src dst = Some e.

(** A step that copies no static file yet, and raises only what [copyfile]
    raises. *)
Definition plain {A} (m : M A) : Prop :=
  forall b, keeps b (fst (m b))
            /\ forall e, snd (m b) = Raise e -> copy_error e.

End Host.

(** ** Further observations *)

(** The warnings logged so far. *)
Definition warnings (tr : list event) : list string :=
  flat_map (fun e => match e with EvWarn msg => [msg] | _ => [] end) tr.

(** The files copied with [copyfile] so far. *)
Definition copies (tr : list event) : list (string * string) :=
  flat_map (fun e => match e with EvCopy src dst => [(src, dst)] | _ => [] end) tr.

(** The files written through a [FileOutput] so far. *)
Definition written (tr : list event) : list string :=
  flat_map (fun e => match e with
                     | EvWrite path _ => [path]
                     | EvWriteDoc path _ => [path]
                     | _ => []
                     end) tr.

Definition deprecation_warning : event :=
  EvPyWarning "DeprecationWarning"
    ("latex_use_parts will be removed at Sphinx-1.5. " +:+
     "Use latex_toplevel_sectioning instead.").

Definition conflict_warning : event :=
  EvWarn "latex_use_parts conflicts with latex_toplevel_sectioning, ignored.".

(** What [check_options] logs for a valid [latex_toplevel_sectioning]. *)
Definition option_warnings (c : Config) : list event :=
  if truthy (latex_use_parts c)
  then deprecation_warning
         :: (if truthy (latex_toplevel_sectioning c) then [conflict_warning] else [])
  else [].

(** The number an output name ends with, read back from its digits. *)
Definition read_number (digits : string) : option nat :=
  option_map Nat.of_uint (NilEmpty.uint_of_string digits).

(** *** What [finish] copies *)

(** Source and destination of the copy of an image. *)
Definition image_copy (b : builder) (entry : string * string) : string * string :=
  (path_join (srcdir b) (fst entry), path_join (outdir b) (snd entry)).

(** Source and destination of the copy of an additional file. *)
Definition additional_copy (b : builder) (filename : string) : string * string :=
  (path_join (confdir b) filename,
   path_join (outdir b) (path_basename filename)).

(** The static directories of the theme chain, base theme first, each with
    the output directory it is copied into. *)
Definition theme_entries (b : builder) : list (string * string) :=
  match theme b with
  | Some th =>
      map (fun themepath => (path_join themepath "static", outdir b))
          (rev (get_dirchain th))
  | None => []
  end.

(** A step that changes nothing of the builder but its log. *)
Definition logs_only {A} (m : M A) : Prop :=
  forall b, exists t, fst (m b) = set_trace t b.

Section HostCopies.

Variable h : host.

(** The logo is copied when it is configured, exists under the
    configuration directory and is not yet in the output directory. *)
Definition logo_copies (b : builder) : list (string * string) :=
  match latex_logo (config b) with
  | PStr logo =>
      if truthy (PStr logo)
         && isfile h (path_join (confdir b) logo)
         && negb (isfile h (path_join (outdir b) (path_basename logo)))
      then [(path_join (confdir b) logo,
             path_join (outdir b) (path_basename logo))]
      else []
  | _ => []
  end.

(** No logo is configured, or the configured one is a file that exists. *)
Definition logo_usable (b : builder) : bool :=
  match latex_logo (config b) with
  | PStr logo =>
      negb (truthy (PStr logo)) || isfile h (path_join (confdir b) logo)
  | v => negb (truthy v)
  end.

(** One round of the loop over the images. *)
Definition copy_image_step (entry : string * string) : M unit :=
  info (" " +:+ fst entry) ;;;
  self <~ gets (fun b => b) ;;
  copy h (path_join (srcdir self) (fst entry))
         (path_join (outdir self) (snd entry)).

(** The events of the phases of [finish] when every copy goes through. *)
Definition images_events (b : builder) : list event :=
  if bool_decide (images b = []) then []
  else EvInfo (bold h "copying images...")
       :: flat_map (fun entry => [EvInfo (" " +:+ fst entry);
                                  EvCopy (fst (image_copy b entry))
                                         (snd (image_copy b entry))])
                   (images b)
       ++ [EvInfo ""].

Definition additional_events (b : builder) : list event :=
  if bool_decide (latex_additional_files (config b) = []) then []
  else EvInfo (bold h "copying additional files...")
       :: flat_map (fun filename => [EvInfo (" " +:+ filename);
                                     EvCopy (fst (additional_copy b filename))
                                            (snd (additional_copy b filename))])
                   (latex_additional_files (config b))
       ++ [EvInfo ""].

Definition logo_events (b : builder) : list event :=
  map (fun p => EvCopy (fst p) (snd p)) (logo_copies b).

Definition static_events (b : builder) : list event :=
  match theme b with
  | Some th =>
      EvInfo (bold h "copying static files...")
      :: flat_map (fun entry => [EvInfo (" " +:+ entry);
                                 EvCopyStatic entry (outdir b)])
                  (map (fun themepath => path_join themepath "static")
                       (rev (get_dirchain th)))
  | None => []
  end.

(** [emits m b events a]: from [b], the step [m] returns [a] and does
    nothing but add [events] to the trace. *)
Definition emits {A} (m : M A) (b : builder) (events : list event) (a : A)
  : Prop :=
  m b = (set_trace (trace b ++ events) b, Ok a).

End HostCopies.

(** * Properties *)

(** ** Formats and paths *)

Example format_chap7 : format (NameFmt "chap" 2) 7 = "chap07".
Proof. reflexivity. Qed.

Example format_app123 : format (NameFmt "app" 2) 123 = "app123".
Proof. reflexivity. Qed.

Example path_join_ex : path_join "out" "chap01.tex" = "out/chap01.tex".
Proof. reflexivity. Qed.

Example path_basename_ex : path_basename "img/logo.png" = "logo.png".
Proof. reflexivity. Qed.

(** ** The monad *)

Ltac run :=
  unfold bind, ret, raise, gets, modify, emit, info, warn, lift, when;
  simpl.

Lemma bind_ok {A B} (m : M A) (k : A -> M B) b b' a :
  m b = (b', Ok a) -> bind m k b = k a b'.
Proof. intros E. unfold bind. now rewrite E. Qed.

(** ** URIs of the documents of the current unit *)

Section Uri.

Variable h : host.

Lemma append_appendices_docnames apps : forall largetree b,
  docnames (fst (append_appendices h apps largetree b)) = docnames b.
Proof.
  induction apps as [|d rest IH]; intros largetree b; simpl.
  - reflexivity.
  - run. destruct (get_doctree h d); simpl; [apply IH | reflexivity].
Qed.

Lemma assemble_doctree_docnames indexfile toctree_only apps b :
  docnames (fst (assemble_doctree h indexfile toctree_only apps b)) =
  match get_doctree h indexfile with
  | Ok tree =>
      fst (inline_all_toctrees h (list_to_set (indexfile :: apps)) indexfile
             (inliner_input indexfile toctree_only tree))
  | Raise _ => list_to_set (indexfile :: apps)
  end.
Proof.
  unfold assemble_doctree, inliner_input. run.
  destruct (get_doctree h indexfile) as [tree|e]; simpl; [|reflexivity].
  match goal with
  | |- context [append_appendices h apps ?t ?b0] =>
      pose proof (append_appendices_docnames apps t b0) as Happ;
      destruct (append_appendices h apps t b0) as [b1 [lt|e]]
  end; simpl in *; [|exact Happ].
  exact Happ.
Qed.

Lemma assemble_doctree_overwrites indexfile toctree_only apps previous b :
  assemble_doctree h indexfile toctree_only apps (set_docnames previous b) =
  assemble_doctree h indexfile toctree_only apps b.
Proof. reflexivity. Qed.

(** C10. [get_target_uri] raises [NoUri] exactly for a docname outside
    [self.docnames], and returns ['%' + docname] otherwise;
    [get_relative_uri] gives the same whatever the source document; and
    [assemble_doctree] overwrites [self.docnames]: what the set held before
    the call has no influence, and after the call it is the set made of the
    root and the appendices (as the host's inliner, which is handed that
    set object, leaves it). *)
Theorem get_target_uri_spec (b : builder) (docname from_ : string)
    (indexfile : string) (toctree_only : bool) (apps : list string)
    (previous : gset string) :
  get_target_uri b docname =
    (if bool_decide (docname ∈ docnames b) then Ok ("%" +:+ docname)
     else Raise NoUri)
  /\ (get_target_uri b docname = Raise NoUri <-> docname ∉ docnames b)
  /\ get_relative_uri b from_ docname = get_target_uri b docname
  /\ assemble_doctree h indexfile toctree_only apps (set_docnames previous b)
     = assemble_doctree h indexfile toctree_only apps b
  /\ docnames (fst (assemble_doctree h indexfile toctree_only apps b)) =
     match get_doctree h indexfile with
     | Ok tree =>
         fst (inline_all_toctrees h (list_to_set (indexfile :: apps)) indexfile
                (inliner_input indexfile toctree_only tree))
     | Raise _ => list_to_set (indexfile :: apps)
     end.
Proof.
  split; [reflexivity|].
  split.
  { unfold get_target_uri. case_bool_decide as Hin.
    - split; [discriminate | tauto].
    - tauto. }
  split; [reflexivity|].
  split; [apply assemble_doctree_overwrites|].
  apply assemble_doctree_docnames.
Qed.

End Uri.

(** ** Options *)

Lemma check_options_keeps_sectioning b :
  latex_toplevel_sectioning (config (fst (check_options b))) =
  latex_toplevel_sectioning (config b).
Proof.
  unfold check_options, read_latex_top_sectionlevel. run.
  case_bool_decide; simpl.
  - destruct (truthy (latex_use_parts (config b))); simpl; [|reflexivity].
    destruct (truthy (latex_toplevel_sectioning (config b))); reflexivity.
  - destruct (latex_top_sectionlevel (config b)); simpl; [|reflexivity].
    destruct (truthy (latex_use_parts (config b))); simpl; [|reflexivity].
    destruct (truthy (latex_toplevel_sectioning (config b))); reflexivity.
Qed.

Lemma check_options_keeps_document_data b :
  document_data (fst (check_options b)) = document_data b.
Proof.
  unfold check_options, read_latex_top_sectionlevel. run.
  case_bool_decide; simpl.
  - destruct (truthy (latex_use_parts (config b))); simpl; [|reflexivity].
    destruct (truthy (latex_toplevel_sectioning (config b))); reflexivity.
  - destruct (latex_top_sectionlevel (config b)); simpl; [|reflexivity].
    destruct (truthy (latex_use_parts (config b))); simpl; [|reflexivity].
    destruct (truthy (latex_toplevel_sectioning (config b))); reflexivity.
Qed.

Lemma check_options_keeps_chapters b :
  pearson_chapters (config (fst (check_options b))) = pearson_chapters (config b)
  /\ docnames (fst (check_options b)) = docnames b.
Proof.
  unfold check_options, read_latex_top_sectionlevel. run.
  case_bool_decide; simpl.
  - destruct (truthy (latex_use_parts (config b))); simpl; [|split; reflexivity].
    destruct (truthy (latex_toplevel_sectioning (config b))); split; reflexivity.
  - destruct (latex_top_sectionlevel (config b)); simpl; [|split; reflexivity].
    destruct (truthy (latex_use_parts (config b))); simpl; [|split; reflexivity].
    destruct (truthy (latex_toplevel_sectioning (config b))); split; reflexivity.
Qed.

Lemma check_options_keeps_titles b :
  titles (fst (check_options b)) = titles b.
Proof.
  unfold check_options, read_latex_top_sectionlevel. run.
  case_bool_decide; simpl.
  - destruct (truthy (latex_use_parts (config b))); simpl; [|reflexivity].
    destruct (truthy (latex_toplevel_sectioning (config b))); reflexivity.
  - destruct (latex_top_sectionlevel (config b)); simpl; [|reflexivity].
    destruct (truthy (latex_use_parts (config b))); simpl; [|reflexivity].
    destruct (truthy (latex_toplevel_sectioning (config b))); reflexivity.
Qed.

(** ** Templates *)

Lemma for_each_warn (l : list string) b :
  for_each l warn b = (set_trace (trace b ++ map EvWarn l) b, Ok tt).
Proof.
  revert b. induction l as [|w l IH]; intros b.
  - simpl. rewrite app_nil_r. now destruct b.
  - cbn [for_each map]. unfold bind at 1. unfold warn at 1, emit, modify.
    rewrite IH. simpl. now rewrite <- app_assoc.
Qed.

(** [init_templates] assigns [theme] and [theme_options] and logs what the
    host's theme code warns about; whether it returns or raises, it leaves
    the configuration and the documents of the builder alone. *)
Lemma init_templates_keeps (h : host) b :
  let b' := fst (init_templates h b) in
  config b' = config b /\ docnames b' = docnames b
  /\ document_data b' = document_data b /\ titles b' = titles b.
Proof.
  unfold init_templates, warning, get_theme_config, run_host.
  unfold bind, gets, lift, id. cbv zeta. rewrite !for_each_warn.
  destruct (init_themes h (confdir b) _) as [ws1 [e1|]]; cbn [fst snd];
    [repeat split|].
  destruct (new_theme h _) as [ws2 [th|e2]]; cbn [fst snd];
    [|repeat split].
  unfold modify.
  destruct (create_template_bridge h); cbn [fst snd]; [repeat split|].
  destruct (templates_init h th); cbn [fst snd]; repeat split.
Qed.

(** [init] leaves the builder without chapters and without docnames,
    whatever it held and wherever it stops; the configured chapter list and
    [titles] are as before. *)
Lemma init_run (h : host) b :
  let b' := fst (init h b) in
  document_data b' = [] /\ docnames b' = ∅
  /\ pearson_chapters (config b') = pearson_chapters (config b)
  /\ titles b' = titles b.
Proof.
  cbv zeta.
  set (b0 := set_document_data []
               (set_docnames ∅
                  (set_trace
                     (trace b ++ [EvInfo "loading builder from Pearson extension"])
                     b))).
  replace (init h b) with ((init_templates h ;;; check_options) b0)
    by reflexivity.
  unfold bind.
  pose proof (init_templates_keeps h b0) as (Hc & Hn & Hd & Ht).
  destruct (init_templates h b0) as [b1 [[]|e]]; cbn [fst snd] in *.
  - pose proof (check_options_keeps_document_data b1) as Hd'.
    pose proof (check_options_keeps_chapters b1) as [Hc' Hn'].
    pose proof (check_options_keeps_titles b1) as Ht'.
    destruct (check_options b1) as [b2 [[]|e]]; cbn [fst snd] in *;
      rewrite Hd', Hn', Hc', Ht', Hd, Hn, Hc, Ht; repeat split.
  - rewrite Hd, Hn, Hc, Ht; repeat split.
Qed.

Example init_demo :
  let c := Demo.conf PNone ["intro"] [] PNone in
  let b := fst (init Demo.site
                  (Builder c {[ "old" ]} ["old"] None [] None None
                           "src" "conf" "out" [])) in
  theme b = theme (Demo.fresh c)
  /\ theme_options b = theme_options (Demo.fresh c)
  /\ document_data b = [] /\ titles b = None
  /\ trace b = [EvInfo "loading builder from Pearson extension"].
Proof. vm_compute. repeat split. Qed.

(** C8 (as the code has it).  With an invalid [latex_toplevel_sectioning],
    [check_options] reads and clears another attribute,
    [latex_top_sectionlevel]: the invalid value stays in the configuration;
    when that other attribute does not exist the read raises, nothing is
    logged and the run stops; when it exists, its value is the one shown in
    the warning and it is the one set to [None]. *)
Theorem check_options_invalid_sectioning (b : builder) (v : pyval) :
  latex_toplevel_sectioning (config b) = v ->
  bool_decide (v ∈ valid_sectioning) = false ->
  latex_toplevel_sectioning (config (fst (check_options b))) = v
  /\ (latex_top_sectionlevel (config b) = None ->
      check_options b =
        (b, Raise (AttributeError "No such config value: latex_top_sectionlevel")))
  /\ (forall w, latex_top_sectionlevel (config b) = Some w ->
      In (EvWarn ("invalid latex_toplevel_sectioning, ignored: " +:+ py_str w))
         (trace (fst (check_options b)))
      /\ latex_top_sectionlevel (config (fst (check_options b))) = Some PNone
      /\ is_ok (snd (check_options b)) = true).
Proof.
  intros Hv Hbad. split; [rewrite check_options_keeps_sectioning; exact Hv|].
  unfold valid_sectioning in Hbad.
  split.
  - intros Habsent. unfold check_options, read_latex_top_sectionlevel. run.
    rewrite Hv, Hbad. simpl. rewrite Habsent. reflexivity.
  - intros w Hw. unfold check_options, read_latex_top_sectionlevel. run.
    rewrite Hv, Hbad. simpl. rewrite Hw. simpl. rewrite ?Hv.
    destruct (truthy (latex_use_parts (config b))); simpl.
    + destruct (truthy v); simpl; (split; [|split; reflexivity]);
        rewrite !in_app_iff; simpl; tauto.
    + split; [|split; reflexivity]. rewrite in_app_iff; simpl; tauto.
Qed.

(** The configuration asks for ['subsection']. *)
Lemma check_options_invalid_sectioning_witness :
  let b := Demo.fresh (Demo.conf (PStr "subsection") ["intro"] [] PNone) in
  latex_toplevel_sectioning (config (fst (check_options b)))
    = PStr "subsection"
  /\ check_options b =
       (b, Raise (AttributeError "No such config value: latex_top_sectionlevel")).
Proof.
  intros b.
  destruct (check_options_invalid_sectioning b (PStr "subsection"))
    as (Hkept & Hraise & _); [reflexivity | reflexivity |].
  split; [exact Hkept | apply Hraise; reflexivity].
Defined.

(** ** Templates *)

Section Templates.

Variable h : host.

Lemma render_template_lineno template_name file_name ctx b err lineno :
  templates_render h template_name ctx = Raise err ->
  exc_lineno err = Some lineno ->
  _render_template h template_name file_name ctx b =
    (set_trace (trace b ++ [EvInfo ("writing " +:+ file_name);
                            EvRender template_name ctx;
                            EvInfo (failure_message h template_name err lineno)]) b,
     Raise err).
Proof.
  intros Hr Hl. unfold _render_template. run. rewrite Hr. run. rewrite Hl. run.
  rewrite <- !app_assoc. reflexivity.
Qed.

(** C7 (as the code has it).  When the template engine raises an error that
    has no [lineno] attribute, the handler fails while it formats its
    message: nothing naming the template is logged, and what reaches the
    caller is an [AttributeError], not the template error. *)
Theorem render_template_no_lineno (template_name file_name : string)
    (ctx : context) (b : builder) (err : exn) :
  templates_render h template_name ctx = Raise err ->
  exc_lineno err = None ->
  _render_template h template_name file_name ctx b =
    (set_trace (trace b ++ [EvInfo ("writing " +:+ file_name);
                            EvRender template_name ctx]) b,
     Raise (AttributeError (py_repr (exc_class err) +:+
                            " object has no attribute 'lineno'"))).
Proof.
  intros Hr Hl. unfold _render_template. run. rewrite Hr. run. rewrite Hl. run.
  rewrite <- !app_assoc. reflexivity.
Qed.

End Templates.

Lemma render_template_no_lineno_witness :
  let b := Demo.fresh (Demo.conf PNone ["intro"] [] PNone) in
  let ctx := Context PNone PNone PNone [] [] None in
  _render_template Demo.site_undefined "book.tex" "out/book.tex" ctx b =
    (set_trace [EvInfo "writing out/book.tex"; EvRender "book.tex" ctx] b,
     Raise (AttributeError "'UndefinedError' object has no attribute 'lineno'")).
Proof.
  intros b ctx.
  apply (render_template_no_lineno Demo.site_undefined "book.tex"
           "out/book.tex" ctx b
           (Exn "UndefinedError" "'edition' is undefined" None));
    reflexivity.
Defined.

(** ** Chapters *)

Section Chapters.

Variable h : host.

Lemma builder_eta b :
  set_trace (trace b) (set_document_data (document_data b) b) = b.
Proof. destruct b; reflexivity. Qed.

Lemma init_chapters_loop chapters : forall b,
  for_each chapters (fun chap =>
      if bool_decide (chap ∈ all_docs h)
      then modify (fun b => set_document_data (document_data b ++ [chap]) b)
      else warn (dquote +:+ "pearson_chapters" +:+ dquote +:+
                 " config value references unknown document " +:+ chap)) b
  = (set_trace
       (trace b ++ map unknown_chapter_warning
                       (List.filter (fun chap => negb (known h chap)) chapters))
       (set_document_data (document_data b ++ List.filter (known h) chapters) b),
     Ok tt).
Proof.
  induction chapters as [|chap rest IH]; intros b; simpl.
  - rewrite !app_nil_r, builder_eta. reflexivity.
  - unfold bind at 1. unfold known in *.
    destruct (bool_decide (chap ∈ all_docs h)); simpl; run; rewrite IH; simpl;
      rewrite <- !app_assoc; reflexivity.
Qed.

Lemma init_chapters_run b :
  init_chapters h b =
    (set_trace (trace b ++ chapter_warnings h (pearson_chapters (config b)))
       (set_document_data
          (document_data b ++ List.filter (known h) (pearson_chapters (config b))) b),
     Ok tt).
Proof.
  unfold init_chapters. run.
  destruct (pearson_chapters (config b)) as [|chap rest] eqn:E.
  - simpl. rewrite app_nil_r. destruct b; reflexivity.
  - rewrite init_chapters_loop. reflexivity.
Qed.

End Chapters.

(** ** The run of [write] *)

Lemma outputs_app tr tr' : outputs (tr ++ tr') = outputs tr ++ outputs tr'.
Proof. apply flat_map_app. Qed.

Lemma same_setup_refl b : same_setup b b.
Proof. repeat split. exists []. symmetry. apply app_nil_r. Qed.

Lemma same_setup_trans b1 b2 b3 :
  same_setup b1 b2 -> same_setup b2 b3 -> same_setup b1 b3.
Proof.
  unfold same_setup.
  intros (? & ? & ? & ? & l1 & E1) (? & ? & ? & ? & l2 & E2).
  repeat split; try congruence.
  exists (l1 ++ l2). rewrite E2, E1, app_assoc. reflexivity.
Qed.

Ltac framed :=
  repeat split;
  try (eexists; simpl; rewrite <- ?app_assoc; reflexivity);
  try (exists []; simpl; rewrite ?app_nil_r; reflexivity).

Lemma performs_bind {A B} (m : M A) (k : A -> M B) b good1 good2 plan1 plan2
    (Q1 : A -> Prop) (Q2 : B -> Prop) :
  performs m b good1 plan1 Q1 ->
  (forall a b', Q1 a -> same_setup b b' -> performs (k a) b' good2 plan2 Q2) ->
  performs (bind m k) b (good1 && good2) (plan1 ++ plan2) Q2.
Proof.
  unfold performs, bind. intros (Hs & Hg & Hm) Hk.
  destruct (m b) as [b1 [a|e]]; simpl in *.
  - destruct Hm as [Hout HQ]. subst good1. simpl.
    destruct (Hk a b1 HQ Hs) as (Hs2 & Hg2 & Hk2).
    split; [eapply same_setup_trans; eauto|]. split; [exact Hg2|].
    destruct (snd (k a b1)) as [r|e].
    + destruct Hk2 as [Hout2 HQ2]. split; [|exact HQ2].
      rewrite Hout2, Hout, app_assoc. reflexivity.
    + destruct Hk2 as (done & rest & -> & Hrest & Hout2).
      exists (plan1 ++ done), rest. split; [apply app_assoc|].
      split; [exact Hrest|]. rewrite Hout2, Hout, app_assoc. reflexivity.
  - subst good1. simpl. split; [exact Hs|]. split; [reflexivity|].
    destruct Hm as (done & rest & -> & Hrest & Hout).
    exists done, (rest ++ plan2). split; [symmetry; apply app_assoc|].
    split; [|exact Hout].
    destruct rest; [congruence | discriminate].
Qed.

Lemma performs_weaken {A} (m : M A) b good plan (Q Q' : A -> Prop) :
  performs m b good plan Q -> (forall a, Q a -> Q' a) -> performs m b good plan Q'.
Proof.
  unfold performs. intros (Hs & Hg & Hm) HQ. split; [exact Hs|]. split; [exact Hg|].
  destruct (snd (m b)); [|exact Hm]. destruct Hm; auto.
Qed.

Lemma performs_gets {A} (f : builder -> A) b :
  performs (gets f) b true [] (fun a => a = f b).
Proof.
  unfold performs, gets; simpl. split; [apply same_setup_refl|].
  split; [reflexivity|]. rewrite app_nil_r. split; reflexivity.
Qed.

Lemma performs_ret {A} (a : A) b : performs (ret a) b true [] (fun r => r = a).
Proof.
  unfold performs, ret; simpl. split; [apply same_setup_refl|].
  split; [reflexivity|]. rewrite app_nil_r. split; reflexivity.
Qed.

Section Write.

Variable h : host.

Ltac quiet := rewrite ?outputs_app; simpl; rewrite ?app_nil_r.

Lemma performs__write_pygments_stylesheet file_name b :
  performs (_write_pygments_stylesheet h file_name) b true [OutFile file_name]
           (fun _ => True).
Proof.
  unfold performs, _write_pygments_stylesheet. run.
  split; [framed|]. split; [reflexivity|].
  split; [|exact I]. rewrite !outputs_app. simpl. rewrite app_nil_r. reflexivity.
Qed.

Lemma performs__render_template template_name file_name ctx b :
  performs (_render_template h template_name file_name ctx) b
           (renders h template_name ctx)
           [OutRender template_name ctx; OutFile file_name] (fun _ => True).
Proof.
  unfold performs, _render_template, renders. run.
  destruct (templates_render h template_name ctx) as [body|err]; simpl.
  - split; [framed|]. split; [reflexivity|]. split; [|exact I].
    rewrite !outputs_app. simpl. rewrite app_nil_r, <- app_assoc. reflexivity.
  - destruct (exc_lineno err); simpl.
    + split; [framed|]. split; [reflexivity|].
      exists [OutRender template_name ctx], [OutFile file_name].
      split; [reflexivity|]. split; [discriminate|].
      rewrite !outputs_app. simpl. rewrite !app_nil_r. reflexivity.
    + split; [framed|]. split; [reflexivity|].
      exists [OutRender template_name ctx], [OutFile file_name].
      split; [reflexivity|]. split; [discriminate|].
      rewrite !outputs_app. simpl. rewrite !app_nil_r. reflexivity.
Qed.

(** [assemble_doctree] on a single document, as [process_doc] calls it. *)
Lemma assemble_doctree_unit docname doc b :
  get_doctree h docname = Ok doc ->
  assemble_doctree h docname false [] b =
    (set_trace (trace b ++ [EvInfo (darkgreen h docname +:+ " "); EvInfo "";
                            EvInfo "resolving references..."])
       (set_docnames
          (fst (inline_all_toctrees h (list_to_set [docname]) docname
                  (set_item "docname" (AStr docname) doc))) b),
     unit_tree h (titles b) docname doc).
Proof.
  intros Hdoc. unfold assemble_doctree, unit_tree. run. rewrite Hdoc. simpl.
  rewrite <- !app_assoc. reflexivity.
Qed.

Lemma assemble_doctree_missing docname toctree_only apps e b :
  get_doctree h docname = Raise e ->
  assemble_doctree h docname toctree_only apps b =
    (set_trace (trace b ++ [EvInfo (darkgreen h docname +:+ " ")])
       (set_docnames (list_to_set (docname :: apps)) b),
     Raise e).
Proof. intros Hdoc. unfold assemble_doctree. run. rewrite Hdoc. reflexivity. Qed.

#[local] Arguments assemble_doctree : simpl never.

Lemma performs_process_doc f num docname b :
  performs (process_doc h f num docname) b (doc_ok h (titles b) docname)
           [OutUnit (unit_path (outdir b) f num) docname]
           (fun name => name = format f num).
Proof.
  unfold performs, process_doc, get_contentsname, doc_ok, unit_path.
  destruct (get_doctree h docname) as [doc|e] eqn:Hdoc.
  2:{ run.
      split; [framed|]. split; [reflexivity|].
      eexists [], [_]. split; [reflexivity|]. split; [discriminate|].
      quiet. reflexivity. }
  destruct (tocdepth_of (traverse toctree doc)) as [depth|e] eqn:Hdepth.
  2:{ run. rewrite ?Hdepth. simpl.
      split; [framed|]. split; [reflexivity|].
      eexists [], [_]. split; [reflexivity|]. split; [discriminate|].
      quiet. reflexivity. }
  run. rewrite ?Hdepth. simpl.
  rewrite (assemble_doctree_unit _ _ _ Hdoc). simpl.
  destruct (unit_tree h (titles b) docname doc) as [tree|e]; simpl.
  2:{ split; [framed|]. split; [reflexivity|].
      eexists [], [_]. split; [reflexivity|]. split; [discriminate|].
      quiet. reflexivity. }
  split; [framed|]. split; [reflexivity|]. split; [|reflexivity].
  quiet. reflexivity.
Qed.

Lemma performs_process_docs f docs : forall num names b,
  performs (process_docs h f num docs names) b
           (forallb (doc_ok h (titles b)) docs)
           (unit_outputs (outdir b) f num docs)
           (fun r => r = names ++ map (format f) (seq num (length docs))).
Proof.
  induction docs as [|docname rest IH]; intros num names b; simpl.
  - eapply performs_weaken; [apply performs_ret|].
    intros a ->. rewrite app_nil_r. reflexivity.
  - change (OutUnit (unit_path (outdir b) f num) docname
              :: unit_outputs (outdir b) f (S num) rest)
      with ([OutUnit (unit_path (outdir b) f num) docname]
              ++ unit_outputs (outdir b) f (S num) rest).
    eapply performs_bind; [apply performs_process_doc|].
    intros name b' -> (Hc & Ho & Ht & Hd & He). simpl.
    rewrite <- Ht, <- Ho.
    eapply performs_weaken; [apply IH|].
    intros a ->. rewrite <- app_assoc. reflexivity.
Qed.

Lemma performs_eq {A} (m : M A) b good good' plan0 plan' (Q : A -> Prop) :
  performs m b good plan0 Q -> good = good' -> plan0 = plan' ->
  performs m b good' plan' Q.
Proof. intros H <- <-. exact H. Qed.

Lemma performs_bind_gets {A B} (f : builder -> A) (k : A -> M B) b good
    plan0 (Q : B -> Prop) :
  performs (k (f b)) b good plan0 Q -> performs (bind (gets f) k) b good plan0 Q.
Proof. intros H. exact H. Qed.

(** A step that raises ends the run: what follows it does not matter. *)
Lemma performs_bind_raise {A B} (m : M A) (k : A -> M B) b plan0
    (Q : A -> Prop) (Q' : B -> Prop) :
  performs m b false plan0 Q -> performs (bind m k) b false plan0 Q'.
Proof.
  unfold performs, bind. intros (Hs & Hg & Hm).
  destruct (m b) as [b1 [a|e]]; simpl in *; [discriminate|].
  split; [exact Hs|]. split; [reflexivity | exact Hm].
Qed.

Lemma outputs_chapter_warnings chapters :
  outputs (chapter_warnings h chapters) = [].
Proof.
  unfold chapter_warnings. destruct chapters as [|c rest]; [reflexivity|].
  induction (List.filter (fun chap => negb (known h chap)) (c :: rest));
    simpl; auto.
Qed.

Ltac setup :=
  repeat match goal with
         | H : same_setup _ _ |- _ => destruct H as (? & ? & ? & ? & ?)
         end;
  repeat match goal with
         | H : config ?x = _ |- context [config ?x] => rewrite H
         | H : outdir ?x = _ |- context [outdir ?x] => rewrite H
         | H : titles ?x = _ |- context [titles ?x] => rewrite H
         | H : document_data ?x = _ |- context [document_data ?x] => rewrite H
         end.

(** The run of [write] on a builder that has no chapter yet: it succeeds
    exactly when the host carries it through; a complete run has produced
    the plan; a run that raises has produced a part of the plan, and stops
    there. *)
Lemma write_run b :
  let data :=
    document_data b ++ List.filter (known h) (pearson_chapters (config b)) in
  is_ok (snd (write h b)) = host_ok h b data
  /\ (exists later,
        trace (fst (write h b)) =
        trace b ++ chapter_warnings h (pearson_chapters (config b)) ++ later)
  /\ match snd (write h b) with
     | Ok _ => outputs (trace (fst (write h b))) = outputs (trace b) ++ plan b data
     | Raise _ =>
         exists done rest,
           plan b data = done ++ rest /\ rest <> []
           /\ outputs (trace (fst (write h b))) = outputs (trace b) ++ done
     end.
Proof.
  intros data. unfold write.
  rewrite (bind_ok _ _ _ _ _ (init_chapters_run h b)). fold data.
  match goal with
  | |- context [snd (?m ?b1)] =>
      assert (P : performs m b1 (host_ok h b data) (plan b data) (fun _ => True));
      [|set (rest := m) in *; set (start := b1) in *]
  end.
  { eapply performs_eq.
    - apply performs_bind_gets. cbv beta.
      eapply performs_bind; [apply performs__write_pygments_stylesheet|].
      intros _ b2 _ S2. apply performs_bind_gets. cbv beta. setup.
      eapply performs_bind; [apply performs__render_template|].
      intros _ b3 _ S3.
      eapply performs_bind; [apply performs__render_template|].
      intros _ b4 _ S4. apply performs_bind_gets. cbv beta. setup.
      eapply performs_bind.
      { eapply performs_eq; [apply performs_process_docs| |];
          setup; reflexivity. }
      intros names b5 -> S5.
      eapply performs_bind.
      { eapply performs_eq; [apply performs_process_docs| |];
          setup; reflexivity. }
      intros apps b6 -> S6.
      eapply performs_bind; [apply performs__render_template|].
      intros _ b7 _ S7.
      eapply performs_weaken; [apply performs_ret|]. intros; exact I.
    - simpl. unfold host_ok. rewrite andb_true_r. reflexivity.
    - rewrite ?app_nil_r. reflexivity. }
  destruct P as ((_ & _ & _ & _ & later & Hlater) & Hgood & Hout).
  assert (Hstart : outputs (trace start) = outputs (trace b)).
  { unfold start. simpl. rewrite outputs_app, outputs_chapter_warnings.
    apply app_nil_r. }
  rewrite Hstart in Hout. split; [exact Hgood|].
  split.
  { exists later. rewrite Hlater. unfold start. simpl.
    rewrite <- app_assoc. reflexivity. }
  destruct (snd (rest start)); [apply Hout | exact Hout].
Qed.

(** When a unit of the appendix list cannot be assembled, the run raises in
    the loop over the appendices at the latest: the book is not reached. *)
Lemma write_stops_at_appendices b :
  let data :=
    document_data b ++ List.filter (known h) (pearson_chapters (config b)) in
  forallb (doc_ok h (titles b)) (latex_appendices (config b)) = false ->
  is_ok (snd (write h b)) = false
  /\ exists done rest,
       front_matter b ++ chapter_units b data ++ appendix_units b = done ++ rest
       /\ rest <> []
       /\ outputs (trace (fst (write h b))) = outputs (trace b) ++ done.
Proof.
  intros data Hbad. unfold write.
  rewrite (bind_ok _ _ _ _ _ (init_chapters_run h b)). fold data.
  match goal with
  | |- context [snd (?m ?b1)] =>
      assert (P : performs m b1 false
                    (front_matter b ++ chapter_units b data ++ appendix_units b)
                    (fun _ => True));
      [|set (rest := m) in *; set (start := b1) in *]
  end.
  { eapply performs_eq.
    - apply performs_bind_gets. cbv beta.
      eapply performs_bind; [apply performs__write_pygments_stylesheet|].
      intros _ b2 _ S2. apply performs_bind_gets. cbv beta. setup.
      eapply performs_bind; [apply performs__render_template|].
      intros _ b3 _ S3.
      eapply performs_bind; [apply performs__render_template|].
      intros _ b4 _ S4. apply performs_bind_gets. cbv beta. setup.
      eapply performs_bind.
      { eapply performs_eq; [apply performs_process_docs| |];
          setup; reflexivity. }
      intros names b5 -> S5.
      eapply performs_bind_raise.
      eapply performs_eq; [apply performs_process_docs| |]; setup;
        [exact Hbad | reflexivity].
    - simpl. rewrite !andb_false_r. reflexivity.
    - reflexivity. }
  destruct P as (_ & Hgood & Hout).
  assert (Hstart : outputs (trace start) = outputs (trace b)).
  { unfold start. simpl. rewrite outputs_app, outputs_chapter_warnings.
    apply app_nil_r. }
  rewrite Hstart in Hout. split; [exact Hgood|].
  destruct (snd (rest start)); [discriminate | exact Hout].
Qed.

End Write.

(** ** Names and order of the outputs *)

Section Outputs.

Variable h : host.

Lemma unit_outputs_combine out f docs : forall num,
  unit_outputs out f num docs =
  map (fun p => OutUnit (unit_path out f (fst p)) (snd p))
      (combine (seq num (length docs)) docs).
Proof.
  induction docs as [|d rest IH]; intros num; simpl; [reflexivity|].
  rewrite IH. reflexivity.
Qed.

Lemma filter_all {A} (p : A -> bool) (l : list A) :
  forallb p l = true -> List.filter p l = l.
Proof.
  induction l as [|x l IH]; simpl; [reflexivity|].
  intros [Hx Hl]%andb_prop. rewrite Hx, IH by exact Hl. reflexivity.
Qed.

Lemma chap_name_fmt_width data :
  chap_name_fmt data =
  NameFmt "chap" (if (length data <? 100)%nat then 2 else 3).
Proof.
  unfold chap_name_fmt.
  destruct (Nat.leb_spec 100 (length data)), (Nat.ltb_spec (length data) 100);
    try reflexivity; lia.
Qed.

Lemma app_name_fmt_width apps :
  app_name_fmt apps =
  NameFmt "app" (if (length apps <? 100)%nat then 2 else 3).
Proof.
  unfold app_name_fmt.
  destruct (Nat.leb_spec 100 (length apps)), (Nat.ltb_spec (length apps) 100);
    try reflexivity; lia.
Qed.

(** Below one hundred, ['{:02d}'] gives exactly two digits. *)
Lemma two_digits i : i < 100 -> String.length (format_0d 2 i) = 2.
Proof.
  intros Hi.
  assert (H : forallb (fun i => Nat.eqb (String.length (format_0d 2 i)) 2)
                      (seq 0 100) = true) by (vm_compute; reflexivity).
  rewrite forallb_forall in H. apply Nat.eqb_eq, H, in_seq. lia.
Qed.

(** Below one thousand, ['{:03d}'] gives exactly three digits. *)
Lemma three_digits i : i < 1000 -> String.length (format_0d 3 i) = 3.
Proof.
  intros Hi.
  assert (H : forallb (fun i => Nat.eqb (String.length (format_0d 3 i)) 3)
                      (seq 0 1000) = true) by (vm_compute; reflexivity).
  rewrite forallb_forall in H. apply Nat.eqb_eq, H, in_seq. lia.
Qed.

Lemma host_ok_intro b data :
  (forall template_name ctx, renders h template_name ctx = true) ->
  forallb (doc_ok h (titles b)) data = true ->
  forallb (doc_ok h (titles b)) (latex_appendices (config b)) = true ->
  host_ok h b data = true.
Proof.
  intros Hr Hd Ha. unfold host_ok. rewrite !Hr, Hd, Ha. reflexivity.
Qed.

(** A run the host carries through returns, with the whole plan done. *)
Lemma write_completes b :
  let data :=
    document_data b ++ List.filter (known h) (pearson_chapters (config b)) in
  host_ok h b data = true ->
  exists b',
    write h b = (b', Ok tt)
    /\ outputs (trace b') = outputs (trace b) ++ plan b data.
Proof.
  intros data Hok. destruct (write_run h b) as (Hgood & _ & Hout).
  fold data in Hgood, Hout. rewrite Hok in Hgood.
  destruct (write h b) as [b' [[]|e]] eqn:E; simpl in *; [|discriminate].
  exists b'. split; [reflexivity | exact Hout].
Qed.

(** C1. When every identifier of the chapter list is a known document (and
    the host carries the run through), the run writes one unit per chapter,
    in the order of the list, to [chap01.tex], [chap02.tex], ... up to the
    length [L] of the list: numbers from 1, padded with zeros to two digits
    when [L < 100] and to three digits once [L >= 100]; the same names,
    without the extension, are the [chapter_names] given to the book
    template. *)
Theorem chapter_outputs_named (b : builder) :
  document_data b = [] ->
  forallb (known h) (pearson_chapters (config b)) = true ->
  host_ok h b (pearson_chapters (config b)) = true ->
  let chapters := pearson_chapters (config b) in
  let L := length chapters in
  let width := if (L <? 100)%nat then 2 else 3 in
  let name := fun i => "chap" +:+ format_0d width i in
  exists b',
    write h b = (b', Ok tt)
    /\ outputs (trace b') =
         outputs (trace b) ++ front_matter b
         ++ map (fun p => OutUnit (path_join (outdir b) (name (fst p) +:+ ".tex"))
                                  (snd p))
                (combine (seq 1 L) chapters)
         ++ appendix_units b ++ book b chapters
    /\ chapter_names (book_context (config b) chapters) = map name (seq 1 L)
    /\ (forall i, 1 <= i <= L ->
          (L < 100 -> String.length (format_0d width i) = 2)
          /\ (100 <= L < 1000 -> String.length (format_0d width i) = 3)).
Proof.
  intros Hdata Hknown Hok chapters L width name.
  destruct (write_completes b) as (b' & Hrun & Hout).
  { rewrite Hdata. simpl. rewrite filter_all by exact Hknown. exact Hok. }
  rewrite Hdata in Hout. simpl in Hout. rewrite filter_all in Hout by exact Hknown.
  exists b'. split; [exact Hrun|].
  split.
  { rewrite Hout. unfold plan, chapter_units.
    rewrite unit_outputs_combine, chap_name_fmt_width. reflexivity. }
  split.
  { unfold book_context, unit_names. simpl.
    rewrite chap_name_fmt_width. reflexivity. }
  intros i Hi. unfold width. split; intros HL.
  - destruct (Nat.ltb_spec L 100); [|lia]. apply two_digits. lia.
  - destruct (Nat.ltb_spec L 100); [lia|]. apply three_digits. lia.
Qed.

(** C2. The appendices are written, in the order of the list, to
    [app01.tex], [app02.tex], ...: the numbers start at 1 whatever the
    chapters are and however many of them were written before (two digits,
    three once the list has a hundred entries). *)
Theorem appendix_outputs_named (b : builder) :
  let data :=
    document_data b ++ List.filter (known h) (pearson_chapters (config b)) in
  host_ok h b data = true ->
  let apps := latex_appendices (config b) in
  let M := length apps in
  let width := if (M <? 100)%nat then 2 else 3 in
  let name := fun i => "app" +:+ format_0d width i in
  exists b',
    write h b = (b', Ok tt)
    /\ outputs (trace b') =
         outputs (trace b) ++ front_matter b ++ chapter_units b data
         ++ map (fun p => OutUnit (path_join (outdir b) (name (fst p) +:+ ".tex"))
                                  (snd p))
                (combine (seq 1 M) apps)
         ++ book b data
    /\ appendices (book_context (config b) data) = map name (seq 1 M)
    /\ (forall i, 1 <= i <= M -> M < 100 ->
          String.length (format_0d width i) = 2).
Proof.
  intros data Hok apps M width name.
  destruct (write_completes b Hok) as (b' & Hrun & Hout). fold data in Hout.
  exists b'. split; [exact Hrun|].
  split.
  { rewrite Hout. unfold plan, appendix_units. fold apps.
    rewrite unit_outputs_combine, app_name_fmt_width. reflexivity. }
  split.
  { unfold book_context, unit_names. simpl. fold apps.
    rewrite app_name_fmt_width. reflexivity. }
  intros i Hi HM. unfold width.
  destruct (Nat.ltb_spec M 100); [|lia]. apply two_digits. lia.
Qed.

End Outputs.

Section Pass.

Variable h : host.

(** C9. [write] is one pass over a fixed plan: the style file and the two
    title pages, the chapters in the order of the list, the appendices in
    the order of theirs, and last the book template, rendered with
    [external_docs] equal to the chapter names followed by the appendix
    names.  A run that returns has produced exactly this sequence; a run
    that raises has produced an initial part of it and nothing else. *)
Theorem write_linear_pass (b : builder) :
  let c := config b in
  let data := document_data b ++ List.filter (known h) (pearson_chapters c) in
  let apps := latex_appendices c in
  let chap_names := map (format (chap_name_fmt data)) (seq 1 (length data)) in
  let app_names := map (format (app_name_fmt apps)) (seq 1 (length apps)) in
  let planned :=
    front_matter b
    ++ unit_outputs (outdir b) (chap_name_fmt data) 1 data
    ++ unit_outputs (outdir b) (app_name_fmt apps) 1 apps
    ++ [OutRender "book.tex"
          (Context (pearson_title c) (pearson_subtitle c) (pearson_author c)
                   chap_names app_names (Some (chap_names ++ app_names)));
        OutFile (path_join (outdir b) "book.tex")] in
  is_ok (snd (write h b)) = host_ok h b data
  /\ match snd (write h b) with
     | Ok _ => outputs (trace (fst (write h b))) = outputs (trace b) ++ planned
     | Raise _ =>
         exists done rest,
           planned = done ++ rest /\ rest <> []
           /\ outputs (trace (fst (write h b))) = outputs (trace b) ++ done
     end.
Proof.
  intros c data apps chap_names app_names planned.
  destruct (write_run h b) as (Hgood & _ & Hout).
  split; [exact Hgood | exact Hout].
Qed.

Lemma In_filter_known chap chapters :
  In chap chapters -> known h chap = true -> In chap (List.filter (known h) chapters).
Proof. intros Hin Hk. apply filter_In. split; assumption. Qed.

Lemma In_unit_outputs out f docs docname : forall num,
  In docname docs <-> exists path, In (OutUnit path docname) (unit_outputs out f num docs).
Proof.
  induction docs as [|d rest IH]; intros num; simpl.
  - split; [tauto | intros [? []]].
  - split.
    + intros [->|Hin]; [eexists; left; reflexivity|].
      destruct (proj1 (IH (S num)) Hin) as [path Hp]. exists path. right. exact Hp.
    + intros [path [Heq|Hin]]; [left; congruence|].
      right. apply (IH (S num)). exists path. exact Hin.
Qed.

(** C3. [init_chapters] never raises: it keeps the known identifiers of the
    chapter list, in order, and logs one warning for each unknown one.  In
    the run of [write] those warnings are in the trace, whether the run
    goes on depends on the known identifiers only, and a run that returns
    has written a unit for every known identifier of the list and none for
    an unknown one. *)
Theorem unknown_chapters_skipped (b : builder) :
  let chapters := pearson_chapters (config b) in
  let data := List.filter (known h) chapters in
  init_chapters h b =
    (set_trace (trace b ++ chapter_warnings h chapters)
       (set_document_data (document_data b ++ data) b),
     Ok tt)
  /\ (forall chap, In chap chapters -> known h chap = false ->
        In (unknown_chapter_warning chap) (trace (fst (write h b))))
  /\ is_ok (snd (write h b)) = host_ok h b (document_data b ++ data)
  /\ (is_ok (snd (write h b)) = true ->
      outputs (trace (fst (write h b))) =
        outputs (trace b) ++ front_matter b
        ++ chapter_units b (document_data b ++ data)
        ++ appendix_units b ++ book b (document_data b ++ data))
  /\ (forall chap, In chap chapters -> known h chap = true ->
        exists path, In (OutUnit path chap) (chapter_units b data))
  /\ (forall chap path, In (OutUnit path chap) (chapter_units b data) ->
        known h chap = true).
Proof.
  intros chapters data.
  destruct (write_run h b) as (Hgood & (later & Hlater) & Hout).
  split; [apply init_chapters_run|].
  split.
  { intros chap Hin Hunknown. rewrite Hlater.
    apply in_or_app. right. apply in_or_app. left.
    unfold chapter_warnings. fold chapters.
    destruct chapters as [|c0 rest]; [destruct Hin|].
    apply in_map, filter_In. split; [exact Hin|]. rewrite Hunknown. reflexivity. }
  split; [exact Hgood|].
  split.
  { intros Hok. destruct (snd (write h b)); [exact Hout | discriminate]. }
  split.
  { intros chap Hin Hk. apply In_unit_outputs, In_filter_known; assumption. }
  intros chap path Hin.
  assert (Hd : In chap data) by (eapply In_unit_outputs; eauto).
  apply filter_In in Hd. apply Hd.
Qed.

Lemma doc_ok_missing ts docname e :
  get_doctree h docname = Raise e -> doc_ok h ts docname = false.
Proof. intros Hdoc. unfold doc_ok. rewrite Hdoc. reflexivity. Qed.

Lemma forallb_false {A} (p : A -> bool) (l : list A) x :
  In x l -> p x = false -> forallb p l = false.
Proof.
  intros Hin Hx. destruct (forallb p l) eqn:E; [|reflexivity].
  rewrite forallb_forall in E. rewrite (E x Hin) in Hx. discriminate.
Qed.

(** C4 (as the code has it).  The appendix list is not checked against the
    known documents: [process_doc] is run on every entry.  An entry whose
    tree the host cannot load makes the run raise, in the loop over the
    appendices at the latest: the outputs stop within the title pages, the
    chapters and the appendices, and the book template is not reached. *)
Theorem unknown_appendix_aborts (b : builder) (docname : string) (e : exn) :
  In docname (latex_appendices (config b)) ->
  get_doctree h docname = Raise e ->
  let data :=
    document_data b ++ List.filter (known h) (pearson_chapters (config b)) in
  is_ok (snd (write h b)) = false
  /\ exists done rest,
       front_matter b ++ chapter_units b data ++ appendix_units b = done ++ rest
       /\ rest <> []
       /\ outputs (trace (fst (write h b))) = outputs (trace b) ++ done.
Proof.
  intros Hin Hdoc data. apply write_stops_at_appendices.
  apply (forallb_false _ _ docname Hin). apply doc_ok_missing with e. exact Hdoc.
Qed.

End Pass.

(** Three chapters, the second one unknown, and one appendix. *)
Example write_demo_outputs :
  outputs (trace (fst (write Demo.site
     (Demo.fresh (Demo.conf PNone ["intro"; "ghost"; "threads"] ["api"] PNone)))))
  = [OutFile "out/pygments.sty";
     OutRender "half-title.tex"
       (Context (PStr "The Book") (PStr "By Example") (PStr "A. Writer") [] [] None);
     OutFile "out/half-title.tex";
     OutRender "title.tex"
       (Context (PStr "The Book") (PStr "By Example") (PStr "A. Writer") [] [] None);
     OutFile "out/title.tex";
     OutUnit "out/chap01.tex" "intro";
     OutUnit "out/chap02.tex" "threads";
     OutUnit "out/app01.tex" "api";
     OutRender "book.tex"
       (Context (PStr "The Book") (PStr "By Example") (PStr "A. Writer")
                ["chap01"; "chap02"] ["app01"]
                (Some ["chap01"; "chap02"; "app01"]));
     OutFile "out/book.tex"].
Proof. vm_compute. reflexivity. Qed.

Lemma chapter_outputs_named_witness :
  let b := Demo.fresh (Demo.conf PNone ["intro"; "threads"] ["api"] PNone) in
  exists b',
    write Demo.site b = (b', Ok tt)
    /\ outputs (trace b') =
         front_matter b
         ++ [OutUnit "out/chap01.tex" "intro"; OutUnit "out/chap02.tex" "threads"]
         ++ appendix_units b ++ book b ["intro"; "threads"].
Proof.
  intros b.
  destruct (chapter_outputs_named Demo.site b) as (b' & Hrun & Hout & _);
    [reflexivity | vm_compute; reflexivity | vm_compute; reflexivity |].
  exists b'. split; [exact Hrun | exact Hout].
Defined.

Lemma appendix_outputs_named_witness :
  let b := Demo.fresh (Demo.conf PNone ["intro"; "ghost"; "threads"]
                                 ["api"; "intro"] PNone) in
  exists b',
    write Demo.site b = (b', Ok tt)
    /\ outputs (trace b') =
         front_matter b ++ chapter_units b ["intro"; "threads"]
         ++ [OutUnit "out/app01.tex" "api"; OutUnit "out/app02.tex" "intro"]
         ++ book b ["intro"; "threads"].
Proof.
  intros b.
  destruct (appendix_outputs_named Demo.site b) as (b' & Hrun & Hout & _);
    [vm_compute; reflexivity|].
  exists b'. split; [exact Hrun | exact Hout].
Defined.

(** The appendix list names a document the site does not have. *)
Lemma unknown_appendix_aborts_witness :
  let b := Demo.fresh (Demo.conf PNone ["intro"] ["ghost"] PNone) in
  is_ok (snd (write Demo.site b)) = false
  /\ exists done rest,
       front_matter b ++ chapter_units b ["intro"] ++ appendix_units b
         = done ++ rest
       /\ rest <> []
       /\ outputs (trace (fst (write Demo.site b))) = done.
Proof.
  intros b.
  apply (unknown_appendix_aborts Demo.site b "ghost"
           (Exn "IOError" "No such file or directory: ghost" None)).
  - left. reflexivity.
  - vm_compute. reflexivity.
Defined.

Example unknown_appendix_run :
  let b := Demo.fresh (Demo.conf PNone ["intro"] ["ghost"] PNone) in
  snd (write Demo.site b) =
    Raise (Exn "IOError" "No such file or directory: ghost" None)
  /\ outputs (trace (fst (write Demo.site b))) =
       front_matter b ++ [OutUnit "out/chap01.tex" "intro"]
  /\ List.filter (fun e => match e with EvWarn _ => true | _ => false end)
                 (trace (fst (write Demo.site b))) = [].
Proof. vm_compute. repeat split. Qed.

(** ** Cross-references to other units *)

Section Pending.

Variable h : host.

Lemma node_ind' (P : node -> Prop) :
  (forall s, P (Text s)) ->
  (forall t a cs, Forall P cs -> P (Element t a cs)) ->
  forall n, P n.
Proof.
  intros HT HE. fix IH 1. intros [s|t a cs]; [apply HT|].
  apply HE. induction cs as [|c cs IHcs]; constructor; [apply IH | exact IHcs].
Qed.

(** *** The loop over the markers, for a builder that was given [titles]

    Nothing in the builder assigns [titles]; the lemmas of this part are
    about a builder to which something else has assigned [ts]. *)

Section Assigned.

Variable ts : list (string * string).

Lemma title_suffix_in_title docname :
  title_suffix h (AStr docname) ts = Ok (in_title h ts docname).
Proof.
  unfold in_title. induction ts as [|[subdir title] rest IH]; simpl; [reflexivity|].
  destruct (String.prefix subdir docname); [reflexivity | exact IH].
Qed.

Lemma pending_newnodes_marker t a cs docname sectname :
  a !! "refdocname" = Some (AStr docname) ->
  a !! "refsectname" = Some (AStr sectname) ->
  pending_newnodes h (Some ts) (Element t a cs) =
    Ok (emphasis sectname :: in_title h ts docname).
Proof.
  intros Hd Hs. unfold pending_newnodes, getitem. rewrite Hd, Hs. simpl.
  rewrite title_suffix_in_title. reflexivity.
Qed.

Lemma marker_ok_newnodes n :
  marker_ok n = true ->
  exists docname sectname,
    pending_newnodes h (Some ts) n = Ok (emphasis sectname :: in_title h ts docname).
Proof.
  destruct n as [s|t a cs]; simpl; [discriminate|].
  destruct (a !! "refdocname") as [[| |docname]|] eqn:Hd; try discriminate.
  destruct (a !! "refsectname") as [[| |sectname]|] eqn:Hs; try discriminate.
  intros _. exists docname, sectname. apply pending_newnodes_marker; assumption.
Qed.

Lemma rmap_all_markers l :
  forallb marker_ok l = true ->
  exists news, rmap_all (pending_newnodes h (Some ts)) l = Ok news.
Proof.
  induction l as [|n l IH]; simpl; [eexists; reflexivity|].
  intros [Hn Hl]%andb_prop.
  destruct (marker_ok_newnodes n Hn) as (d & s & ->).
  destruct (IH Hl) as [news ->]. simpl. eexists; reflexivity.
Qed.

Lemma traverse_emphasis text : traverse pending_xref (emphasis text) = [].
Proof. unfold emphasis. destruct (String.eqb text ""); reflexivity. Qed.

Lemma traverse_in_title docname :
  flat_map (traverse pending_xref) (in_title h ts docname) = [].
Proof.
  unfold in_title. destruct (find _ ts); [|reflexivity].
  unfold flat_map. rewrite traverse_emphasis. reflexivity.
Qed.

Lemma forallb_app_l {A} (p : A -> bool) l l' :
  forallb p (l ++ l') = true -> forallb p l = true.
Proof. rewrite forallb_app. intros [H _]%andb_prop. exact H. Qed.

Lemma forallb_app_r {A} (p : A -> bool) l l' :
  forallb p (l ++ l') = true -> forallb p l' = true.
Proof. rewrite forallb_app. intros [_ H]%andb_prop. exact H. Qed.

Lemma replace_pending_clean n :
  forallb marker_ok (traverse pending_xref n) = true ->
  flat_map (traverse pending_xref) (replace_pending h (Some ts) n) = [].
Proof.
  induction n as [s|t a cs IH] using node_ind'; [reflexivity|].
  simpl. destruct (String.eqb t pending_xref) eqn:Ht.
  - simpl. intros [Hn _]%andb_prop.
    destruct (marker_ok_newnodes (Element t a cs) Hn) as (d & s & ->).
    cbn [flat_map]. rewrite traverse_emphasis, traverse_in_title. reflexivity.
  - simpl. rewrite Ht, app_nil_r. simpl.
    induction IH as [|c cs Hc Hcs IHcs]; simpl; [reflexivity|].
    intros Hall. rewrite flat_map_app.
    rewrite Hc by (eapply forallb_app_l; exact Hall).
    apply IHcs. eapply forallb_app_r; exact Hall.
Qed.

Lemma replace_pending_list_clean cs :
  forallb marker_ok (flat_map (traverse pending_xref) cs) = true ->
  flat_map (traverse pending_xref) (flat_map (replace_pending h (Some ts)) cs) = [].
Proof.
  induction cs as [|c cs IH]; simpl; [reflexivity|].
  intros Hall. rewrite flat_map_app.
  rewrite replace_pending_clean by (eapply forallb_app_l; exact Hall).
  apply IH. eapply forallb_app_r; exact Hall.
Qed.

Lemma in_title_nonempty docname :
  in_title h ts docname <> [] <->
  exists entry, In entry ts /\ String.prefix (fst entry) docname = true.
Proof.
  unfold in_title.
  destruct (find (fun entry => String.prefix (fst entry) docname) ts)
    as [entry|] eqn:E.
  - split; [|discriminate]. intros _. exists entry.
    apply find_some in E. exact E.
  - split; [congruence|]. intros (entry & Hin & Hp).
    rewrite (find_none _ _ E entry Hin) in Hp. discriminate.
Qed.

(** With [titles] assigned: in a composite tree (an element that is not
    itself a marker) whose pending markers name their target document and
    section, the rewriting does not raise; it leaves no marker; and each
    marker is replaced, where it stood among its siblings, by the
    emphasized section name, followed by [' (in '], the emphasized title
    and [')'] exactly when some prefix of the title mapping starts the
    target docname (the title is that of the first such entry). *)
Lemma pending_markers_with_titles (t : string) (a : gmap string attr)
    (cs : list node) :
  String.eqb t pending_xref = false ->
  forallb marker_ok (flat_map (traverse pending_xref) cs) = true ->
  resolve_pending h (Some ts) (Element t a cs) =
    Ok (Element t a (flat_map (replace_pending h (Some ts)) cs))
  /\ traverse pending_xref (Element t a (flat_map (replace_pending h (Some ts)) cs)) = []
  /\ (forall before after ma mcs docname sectname,
        ma !! "refdocname" = Some (AStr docname) ->
        ma !! "refsectname" = Some (AStr sectname) ->
        flat_map (replace_pending h (Some ts))
                 (before ++ Element pending_xref ma mcs :: after) =
          flat_map (replace_pending h (Some ts)) before
          ++ (emphasis sectname :: in_title h ts docname)
          ++ flat_map (replace_pending h (Some ts)) after)
  /\ (forall docname,
        in_title h ts docname <> [] <->
        exists entry, In entry ts /\ String.prefix (fst entry) docname = true).
Proof.
  intros Ht Hall. split.
  { unfold resolve_pending. rewrite Ht.
    destruct (rmap_all_markers _ Hall) as [news ->]. reflexivity. }
  split.
  { simpl. rewrite Ht. simpl. apply replace_pending_list_clean, Hall. }
  split.
  { intros before after ma mcs docname sectname Hd Hs.
    rewrite flat_map_app. simpl.
    rewrite (pending_newnodes_marker _ _ _ _ _ Hd Hs). reflexivity. }
  apply in_title_nonempty.
Qed.

End Assigned.

End Pending.

Example pending_markers_with_titles_run :
  resolve_pending Demo.site (Some [("lib/", "The Library")]) Demo.doc_with_marker =
    Ok (Element "document" ∅
          [Element toctree
             {[ "maxdepth" := AInt 2; "caption" := AStr "Contents" ]} [];
           Element "paragraph" ∅
             [Text "see "; emphasis "Files"; Text " (in ";
              emphasis "The Library"; Text ")"]]).
Proof. reflexivity. Qed.

(** A marker without its target raises [KeyError]. *)
Example pending_marker_without_target :
  resolve_pending Demo.site (Some [])
    (Element "document" ∅ [Element pending_xref ∅ []])
  = Raise (KeyError "refdocname").
Proof. reflexivity. Qed.

(** ** The finish phase *)

Section Finish.

Variable h : host.

Lemma keeps_refl b : keeps b b.
Proof. repeat split. Qed.

Lemma keeps_trans b1 b2 b3 : keeps b1 b2 -> keeps b2 b3 -> keeps b1 b3.
Proof. unfold keeps. intuition congruence. Qed.

Lemma plain_ret {A} (a : A) : plain h (ret a).
Proof. intros b. split; [apply keeps_refl | discriminate]. Qed.

Lemma plain_gets {A} (f : builder -> A) : plain h (gets f).
Proof. intros b. split; [apply keeps_refl | discriminate]. Qed.

Lemma plain_bind {A B} (m : M A) (k : A -> M B) :
  plain h m -> (forall a, plain h (k a)) -> plain h (bind m k).
Proof.
  intros Hm Hk b. unfold bind. destruct (Hm b) as [Hkeep Herr].
  destruct (m b) as [b1 [a|e]]; simpl in *.
  - destruct (Hk a b1) as [Hkeep' Herr']. split; [|exact Herr'].
    eapply keeps_trans; eauto.
  - split; [exact Hkeep|]. intros e' [= <-]. apply Herr. reflexivity.
Qed.

Lemma static_copies_app tr tr' :
  static_copies (tr ++ tr') = static_copies tr ++ static_copies tr'.
Proof. apply flat_map_app. Qed.

Lemma plain_info msg : plain h (info msg).
Proof.
  intros b. split; [|discriminate]. unfold info, emit, modify; simpl.
  repeat split. simpl. rewrite static_copies_app. apply app_nil_r.
Qed.

Lemma plain_copy src dst : plain h (copy h src dst).
Proof.
  intros b. unfold copy. run.
  destruct (copyfile h src dst) as [e|] eqn:E; simpl.
  - split.
    + repeat split. simpl. rewrite static_copies_app. apply app_nil_r.
    + intros e' [= <-]. exists src, dst. exact E.
  - split; [|discriminate].
    repeat split. simpl. rewrite static_copies_app. apply app_nil_r.
Qed.

Lemma plain_for_each {A} (l : list A) (body : A -> M unit) :
  (forall x, plain h (body x)) -> plain h (for_each l body).
Proof.
  intros Hbody. induction l as [|x l IH]; simpl.
  - apply plain_ret.
  - apply plain_bind; [apply Hbody | intros _; exact IH].
Qed.

Lemma plain_when cond (m : M unit) : plain h m -> plain h (when cond m).
Proof. intros Hm. destruct cond; [exact Hm | apply plain_ret]. Qed.

Lemma plain_copy_images : plain h (copy_images h).
Proof.
  unfold copy_images. apply plain_bind; [apply plain_gets|]. intros imgs.
  apply plain_when.
  apply plain_bind; [apply plain_info|]. intros _.
  apply plain_bind; [|intros _; apply plain_info].
  apply plain_for_each. intros entry.
  apply plain_bind; [apply plain_info|]. intros _.
  apply plain_bind; [apply plain_gets|]. intros self. apply plain_copy.
Qed.

Lemma plain_copy_additional_files : plain h (copy_additional_files h).
Proof.
  unfold copy_additional_files.
  apply plain_bind; [apply plain_gets|]. intros files.
  apply plain_when.
  apply plain_bind; [apply plain_info|]. intros _.
  apply plain_bind; [|intros _; apply plain_info].
  apply plain_for_each. intros filename.
  apply plain_bind; [apply plain_info|]. intros _.
  apply plain_bind; [apply plain_gets|]. intros self. apply plain_copy.
Qed.

Lemma copy_logo_missing b logo :
  latex_logo (config b) = PStr logo ->
  truthy (PStr logo) = true ->
  isfile h (path_join (confdir b) logo) = false ->
  copy_logo h b = (b, Raise (logo_error logo)).
Proof.
  intros Hlogo Htrue Hmissing. unfold copy_logo. run.
  rewrite Hlogo, Htrue, Hmissing. reflexivity.
Qed.

(** C6. With a logo configured and no such file under the configuration
    directory, [finish] raises, and no static file of the theme has been
    copied at that point: the copies of images and additional files come
    first, the check of the logo next, the static files last.  What is
    raised is the logo error, unless one of the earlier copies failed (then
    it is that copy's error). *)
Theorem finish_missing_logo (b : builder) (logo : string) :
  latex_logo (config b) = PStr logo ->
  truthy (PStr logo) = true ->
  isfile h (path_join (confdir b) logo) = false ->
  exists b' e,
    finish h b = (b', Raise e)
    /\ static_copies (trace b') = static_copies (trace b)
    /\ (e = logo_error logo \/ copy_error h e)
    /\ ((forall src dst, copyfile h src dst = None) -> e = logo_error logo).
Proof.
  intros Hlogo Htrue Hmissing. unfold finish.
  destruct (plain_copy_images b) as [K1 E1]. unfold bind at 1.
  destruct (copy_images h b) as [b1 [[]|e1]]; simpl in *.
  2:{ exists b1, e1. split; [reflexivity|]. split; [apply K1|].
      split; [right; apply E1; reflexivity|].
      intros Hcopy. destruct (E1 e1 eq_refl) as (src & dst & Hsd).
      rewrite Hcopy in Hsd. discriminate. }
  destruct (plain_copy_additional_files b1) as [K2 E2]. unfold bind at 1.
  destruct (copy_additional_files h b1) as [b2 [[]|e2]]; simpl in *.
  2:{ exists b2, e2. split; [reflexivity|].
      split; [apply (keeps_trans _ _ _ K1 K2)|].
      split; [right; apply E2; reflexivity|].
      intros Hcopy. destruct (E2 e2 eq_refl) as (src & dst & Hsd).
      rewrite Hcopy in Hsd. discriminate. }
  pose proof (keeps_trans _ _ _ K1 K2) as (Hc & Hd & _ & Hs).
  unfold bind at 1. rewrite (copy_logo_missing b2 logo).
  - exists b2, (logo_error logo). split; [reflexivity|].
    split; [exact Hs|]. split; [left; reflexivity | reflexivity].
  - rewrite Hc. exact Hlogo.
  - exact Htrue.
  - rewrite Hd. exact Hmissing.
Qed.

End Finish.

(** The site has [conf/cover.png] and no [conf/logo.png]. *)
Lemma finish_missing_logo_witness :
  let b := Demo.fresh (Demo.conf PNone ["intro"] [] (PStr "logo.png")) in
  exists b' e,
    finish Demo.site b = (b', Raise e)
    /\ static_copies (trace b') = []
    /\ e = SphinxError "logo file 'logo.png' does not exist".
Proof.
  intros b.
  destruct (finish_missing_logo Demo.site b "logo.png")
    as (b' & e & Hrun & Hstatic & _ & Herr);
    [reflexivity | reflexivity | reflexivity |].
  exists b', e. split; [exact Hrun|]. split; [exact Hstatic|].
  apply Herr. reflexivity.
Defined.

Example finish_missing_logo_trace :
  trace (fst (finish Demo.site
                (Demo.fresh (Demo.conf PNone ["intro"] [] (PStr "logo.png")))))
  = [EvInfo "copying images..."; EvInfo " fig.png";
     EvCopy "src/fig.png" "out/fig.png"; EvInfo "";
     EvInfo "copying additional files..."; EvInfo " extra/preamble.tex";
     EvCopy "conf/extra/preamble.tex" "out/preamble.tex"; EvInfo ""].
Proof. reflexivity. Qed.

Example finish_with_logo_statics :
  static_copies (trace (fst (finish Demo.site
     (Demo.fresh (Demo.conf PNone ["intro"] [] (PStr "cover.png"))))))
  = [("themes/basic/static", "out"); ("themes/pearson/static", "out")].
Proof. reflexivity. Qed.

(** * Further properties *)

(** ** Options and initialisation *)

(** With a valid [latex_toplevel_sectioning], [check_options] does not
    raise and leaves the builder as it is but for the trace: it logs the
    deprecation warning when [latex_use_parts] is set, and the conflict
    warning when [latex_toplevel_sectioning] is set as well. *)
Theorem check_options_valid (b : builder) :
  bool_decide (latex_toplevel_sectioning (config b) ∈ valid_sectioning) = true ->
  check_options b =
    (set_trace (trace b ++ option_warnings (config b)) b, Ok tt)
  /\ (In conflict_warning (option_warnings (config b)) <->
      truthy (latex_use_parts (config b)) = true
      /\ truthy (latex_toplevel_sectioning (config b)) = true).
Proof.
  intros Hvalid. unfold valid_sectioning in Hvalid. split.
  - unfold check_options, option_warnings. run. rewrite Hvalid. simpl.
    destruct (truthy (latex_use_parts (config b))); simpl.
    + destruct (truthy (latex_toplevel_sectioning (config b)));
        unfold ret, warn, emit, modify; simpl;
        rewrite <- ?app_assoc; reflexivity.
    + rewrite app_nil_r. destruct b; reflexivity.
  - unfold option_warnings.
    destruct (truthy (latex_use_parts (config b)));
      destruct (truthy (latex_toplevel_sectioning (config b))); simpl;
      unfold conflict_warning, deprecation_warning; split;
      try tauto; try (intros [? ?]; discriminate);
      intros [H|H]; try discriminate H; try tauto.
Qed.

Lemma check_options_valid_witness :
  let b := Demo.fresh
             (set_latex_top_sectionlevel None
                (Demo.conf (PStr "chapter") ["intro"] [] PNone)) in
  check_options b = (b, Ok tt).
Proof.
  intros b.
  destruct (check_options_valid b) as [Hrun _]; [reflexivity|].
  exact Hrun.
Defined.

Section Init.

Variable h : host.

(** [init] starts the builder afresh whatever it held and whether or not
    [init_templates] or [check_options] raises: no chapter is left, no
    docname has a URI, and [init_chapters] then keeps exactly the known
    identifiers of the configured chapter list. *)
Theorem init_starts_afresh (b : builder) (docname : string) :
  document_data (fst (init h b)) = []
  /\ get_target_uri (fst (init h b)) docname = Raise NoUri
  /\ document_data (fst (init_chapters h (fst (init h b)))) =
       List.filter (known h) (pearson_chapters (config b)).
Proof.
  destruct (init_run h b) as (Hd & Hn & Hc & _).
  split; [exact Hd|]. split.
  - unfold get_target_uri. rewrite Hn. reflexivity.
  - rewrite init_chapters_run. simpl. rewrite Hd, Hc. reflexivity.
Qed.

(** Every identifier of a non-empty chapter list leaves exactly one mark in
    [init_chapters]: it is appended to [document_data] or a warning is
    logged for it; an empty list gets the single warning that no chapter is
    configured. *)
Theorem init_chapters_counts (b : builder) :
  let b' := fst (init_chapters h b) in
  let chapters := pearson_chapters (config b) in
  length (document_data b') + length (warnings (trace b')) =
  length (document_data b) + length (warnings (trace b))
  + Nat.max 1 (length chapters).
Proof.
  intros b' chapters. unfold b'. rewrite init_chapters_run. simpl.
  fold chapters. unfold warnings at 1. rewrite flat_map_app. fold (warnings (trace b)).
  rewrite !length_app.
  assert (H : length (List.filter (known h) chapters)
              + length (flat_map (fun e => match e with EvWarn msg => [msg] | _ => [] end)
                                 (chapter_warnings h chapters))
              = Nat.max 1 (length chapters)).
  { assert (Hl : forall l,
              length (List.filter (known h) l)
              + length (flat_map (fun e => match e with EvWarn msg => [msg] | _ => [] end)
                          (map unknown_chapter_warning
                             (List.filter (fun chap => negb (known h chap)) l)))
              = length l).
    { induction l as [|x l IH]; simpl; [reflexivity|].
      destruct (known h x); simpl; lia. }
    unfold chapter_warnings. destruct chapters as [|c rest]; [reflexivity|].
    rewrite Hl. simpl. reflexivity. }
  lia.
Qed.

End Init.

(** ** Output names *)

Lemma read_number_zeros k digits :
  read_number (zeros k +:+ digits) = read_number digits.
Proof.
  unfold read_number. induction k as [|k IH]; [reflexivity|].
  change (zeros (S k) +:+ digits) with (String "0" (zeros k +:+ digits)).
  cbn [NilEmpty.uint_of_string].
  destruct (NilEmpty.uint_of_string (zeros k +:+ digits)) as [d|];
    destruct (NilEmpty.uint_of_string digits) as [d'|]; simpl in *;
    try discriminate; [|reflexivity].
  injection IH as IH. f_equal. exact IH.
Qed.

(** The number is read back from its padded digits. *)
Lemma read_number_format_0d width n : read_number (format_0d width n) = Some n.
Proof.
  unfold format_0d. rewrite read_number_zeros. unfold read_number, str_of_nat.
  rewrite NilEmpty.usu. simpl. f_equal. apply Unsigned.of_to.
Qed.

Lemma append_inj_l prefix s s' : prefix +:+ s = prefix +:+ s' -> s = s'.
Proof.
  induction prefix as [|c prefix IH]; simpl; [tauto|].
  intros [= H]. apply IH, H.
Qed.

Lemma format_inj f i j : format f i = format f j -> i = j.
Proof.
  unfold format. intros H%append_inj_l.
  apply (f_equal read_number) in H. rewrite !read_number_format_0d in H.
  congruence.
Qed.

Lemma unit_names_NoDup f docs : List.NoDup (unit_names f docs).
Proof.
  unfold unit_names. apply Finite.Injective_map_NoDup; [|apply seq_NoDup].
  intros i j. apply format_inj.
Qed.

Lemma book_context_distinct (c : Config) (data : list string) :
  exists names,
    external_docs (book_context c data) = Some names
    /\ names = chapter_names (book_context c data)
               ++ appendices (book_context c data)
    /\ length names = length data + length (latex_appendices c)
    /\ List.NoDup names.
Proof.
  eexists. split; [reflexivity|]. split; [reflexivity|]. split.
  - simpl. unfold unit_names. rewrite length_app, !length_map, !length_seq.
    reflexivity.
  - simpl. apply List.NoDup_app; try apply unit_names_NoDup.
    intros name Hc Ha.
    unfold unit_names in Hc, Ha.
    apply in_map_iff in Hc as (i & <- & _). apply in_map_iff in Ha as (j & Ha & _).
    unfold chap_name_fmt, app_name_fmt, format in Ha.
    destruct (100 <=? length data)%nat, (100 <=? length (latex_appendices c))%nat;
      simpl in Ha; discriminate.
Qed.

(** ** More on the run of [write] *)

Section WriteMore.

Variable h : host.

Ltac settle :=
  repeat match goal with
         | H : same_setup _ _ |- _ => destruct H as (? & ? & ? & ? & ?)
         end;
  repeat match goal with
         | H : config ?x = _ |- context [config ?x] => rewrite H
         | H : outdir ?x = _ |- context [outdir ?x] => rewrite H
         | H : titles ?x = _ |- context [titles ?x] => rewrite H
         | H : document_data ?x = _ |- context [document_data ?x] => rewrite H
         end.

(** [write] is [init_chapters] followed by steps that perform the plan. *)
Lemma write_after_init b :
  let data :=
    document_data b ++ List.filter (known h) (pearson_chapters (config b)) in
  exists rest : M unit,
    write h b = rest (fst (init_chapters h b))
    /\ performs rest (fst (init_chapters h b)) (host_ok h b data) (plan b data)
                (fun _ => True).
Proof.
  intros data. unfold write.
  rewrite (bind_ok _ _ _ _ _ (init_chapters_run h b)).
  rewrite init_chapters_run. cbn [fst]. fold data.
  eexists. split; [reflexivity|].
  eapply performs_eq.
  - apply performs_bind_gets. cbv beta.
    eapply performs_bind; [apply performs__write_pygments_stylesheet|].
    intros _ b2 _ S2. apply performs_bind_gets. cbv beta. settle.
    eapply performs_bind; [apply performs__render_template|].
    intros _ b3 _ S3.
    eapply performs_bind; [apply performs__render_template|].
    intros _ b4 _ S4. apply performs_bind_gets. cbv beta. settle.
    eapply performs_bind.
    { eapply performs_eq; [apply performs_process_docs| |];
        settle; reflexivity. }
    intros names b5 -> S5.
    eapply performs_bind.
    { eapply performs_eq; [apply performs_process_docs| |];
        settle; reflexivity. }
    intros apps b6 -> S6.
    eapply performs_bind; [apply performs__render_template|].
    intros _ b7 _ S7.
    eapply performs_weaken; [apply performs_ret|]. intros; exact I.
  - simpl. unfold host_ok. rewrite andb_true_r. reflexivity.
  - rewrite ?app_nil_r. reflexivity.
Qed.

Lemma write_setup b :
  config (fst (write h b)) = config b
  /\ outdir (fst (write h b)) = outdir b
  /\ titles (fst (write h b)) = titles b
  /\ document_data (fst (write h b)) =
       document_data b ++ List.filter (known h) (pearson_chapters (config b))
  /\ exists later, trace (fst (write h b)) = trace b ++ later.
Proof.
  destruct (write_after_init b) as (rest & -> & (Hc & Ho & Ht & Hd & l & Hl) & _).
  rewrite init_chapters_run in *. simpl in *.
  repeat split; try assumption.
  eexists. rewrite Hl, <- app_assoc. reflexivity.
Qed.

(** [write] never resets the chapters: it appends the known identifiers of
    the configured list to those the builder already holds and leaves the
    configuration alone, whether it returns or raises.  A builder written a
    second time without [init] in between therefore holds, and numbers,
    every chapter twice. *)
Theorem write_accumulates_chapters (b : builder) :
  let kept := List.filter (known h) (pearson_chapters (config b)) in
  document_data (fst (write h b)) = document_data b ++ kept
  /\ config (fst (write h b)) = config b
  /\ document_data (fst (write h (fst (write h b)))) =
       document_data b ++ kept ++ kept
  /\ (is_ok (snd (write h (fst (write h b)))) = true ->
      exists before after,
        outputs (trace (fst (write h (fst (write h b))))) =
        before ++ unit_outputs (outdir b)
                    (chap_name_fmt (document_data b ++ kept ++ kept)) 1
                    (document_data b ++ kept ++ kept)
        ++ after).
Proof.
  intros kept.
  destruct (write_setup b) as (Hc & Ho & _ & Hd & _).
  split; [exact Hd|]. split; [exact Hc|].
  destruct (write_setup (fst (write h b))) as (_ & _ & _ & Hd2 & _).
  assert (Hdd : document_data (fst (write h (fst (write h b)))) =
                document_data b ++ kept ++ kept).
  { rewrite Hd2, Hc, Hd, <- app_assoc. reflexivity. }
  split; [exact Hdd|].
  intros Hok.
  destruct (write_run h (fst (write h b))) as (_ & _ & Hout).
  destruct (snd (write h (fst (write h b)))); [|discriminate].
  rewrite Hout. unfold plan, chapter_units.
  rewrite Hc, Ho, Hd, <- (app_assoc (document_data b)).
  fold kept.
  exists (outputs (trace (fst (write h b))) ++ front_matter (fst (write h b))).
  eexists. rewrite <- !app_assoc. reflexivity.
Qed.

(** With an empty chapter list (and no chapter held), [write] warns that no
    documents will be written and goes on all the same: the style file, the
    title pages, the appendices and the book are written, the book with no
    chapter names. *)
Theorem write_without_chapters (b : builder) :
  pearson_chapters (config b) = [] ->
  document_data b = [] ->
  In (no_chapters_warning) (trace (fst (write h b)))
  /\ is_ok (snd (write h b)) = host_ok h b []
  /\ (is_ok (snd (write h b)) = true ->
      outputs (trace (fst (write h b))) =
        outputs (trace b) ++ front_matter b ++ appendix_units b ++ book b []
      /\ chapter_names (book_context (config b) []) = []).
Proof.
  intros Hnone Hdata.
  destruct (write_run h b) as (Hgood & (later & Hlater) & Hout).
  rewrite Hnone, Hdata in *. simpl in *.
  split.
  { rewrite Hlater. apply in_or_app. right. left. reflexivity. }
  split; [exact Hgood|].
  intros Hok. destruct (snd (write h b)); [|discriminate].
  split; [exact Hout | reflexivity].
Qed.

(** No two units of a run share a name: in a run that returns, the book
    template is rendered with [external_docs] holding one name per chapter
    kept and per appendix ([chapNN] then [appNN]), all distinct, so no unit
    file overwrites another. *)
Theorem write_names_distinct (b : builder) :
  is_ok (snd (write h b)) = true ->
  let data :=
    document_data b ++ List.filter (known h) (pearson_chapters (config b)) in
  exists ctx names,
    In (OutRender "book.tex" ctx) (outputs (trace (fst (write h b))))
    /\ external_docs ctx = Some names
    /\ length names = length data + length (latex_appendices (config b))
    /\ List.NoDup names.
Proof.
  intros Hok data.
  destruct (write_run h b) as (_ & _ & Hout). fold data in Hout.
  destruct (snd (write h b)); [|discriminate].
  destruct (book_context_distinct (config b) data) as (names & He & _ & Hl & Hn).
  exists (book_context (config b) data), names.
  split; [|repeat split; assumption].
  rewrite Hout. unfold plan, book.
  apply in_or_app. right. apply in_or_app. right. apply in_or_app. right.
  apply in_or_app. right. left. reflexivity.
Qed.

End WriteMore.

Lemma write_without_chapters_witness :
  let b := Demo.fresh (Demo.conf PNone [] ["api"] PNone) in
  In (no_chapters_warning) (trace (fst (write Demo.site b)))
  /\ outputs (trace (fst (write Demo.site b))) =
       front_matter b ++ [OutUnit "out/app01.tex" "api"] ++ book b [].
Proof.
  intros b.
  destruct (write_without_chapters Demo.site b) as (Hwarn & _ & Hout);
    [reflexivity | reflexivity |].
  split; [exact Hwarn|]. apply Hout. vm_compute. reflexivity.
Defined.

Lemma write_names_distinct_witness :
  let b := Demo.fresh (Demo.conf PNone ["intro"; "threads"] ["api"] PNone) in
  exists ctx names,
    In (OutRender "book.tex" ctx) (outputs (trace (fst (write Demo.site b))))
    /\ external_docs ctx = Some names
    /\ length names = 3
    /\ List.NoDup names.
Proof.
  intros b.
  apply (write_names_distinct Demo.site b). vm_compute. reflexivity.
Defined.

(** ** Templates, toctrees and assembly *)

Section Units.

Variable h : host.

Lemma written_app tr tr' : written (tr ++ tr') = written tr ++ written tr'.
Proof. apply flat_map_app. Qed.

(** [_render_template] writes its file exactly when the template renders:
    then the body is written and returned; when rendering fails nothing is
    written, and for an error with a line number the message naming the
    template, the error and the line is logged and the same error raised. *)
Theorem render_template_writes_iff_rendered (template_name file_name : string)
    (ctx : context) (b : builder) :
  let r := _render_template h template_name file_name ctx b in
  is_ok (snd r) = renders h template_name ctx
  /\ written (trace (fst r)) =
       written (trace b) ++ (if renders h template_name ctx then [file_name] else [])
  /\ match templates_render h template_name ctx with
     | Ok body =>
         snd r = Ok body
         /\ exists earlier, trace (fst r) = earlier ++ [EvWrite file_name body]
     | Raise err =>
         forall lineno, exc_lineno err = Some lineno ->
           snd r = Raise err
           /\ exists earlier,
                trace (fst r) =
                earlier ++ [EvInfo (failure_message h template_name err lineno)]
     end.
Proof.
  unfold _render_template, renders. run.
  destruct (templates_render h template_name ctx) as [body|err]; simpl.
  - split; [reflexivity|]. split.
    + rewrite !written_app. simpl. rewrite !app_nil_r. reflexivity.
    + split; [reflexivity|]. eexists. reflexivity.
  - destruct (exc_lineno err) as [n|]; simpl.
    + split; [reflexivity|]. split.
      * rewrite !written_app. simpl. rewrite !app_nil_r. reflexivity.
      * intros lineno [= <-]. split; [reflexivity|]. eexists. reflexivity.
    + split; [reflexivity|]. split.
      * rewrite !written_app. simpl. rewrite !app_nil_r. reflexivity.
      * intros lineno [=].
Qed.

(** The depth [process_doc] sets on a unit is [None] or a positive number:
    it is read from the first toctree only, a first toctree whose
    [maxdepth] is no number raises; without a toctree the depth is [None],
    a positive [maxdepth] of the first toctree is the depth, and one of zero
    or less gives [None]. *)
Theorem tocdepth_of_positive (toctrees : list node) :
  (forall v, tocdepth_of toctrees = Ok v ->
     v = ANone \/ exists z, v = AInt z /\ (0 < z)%Z)
  /\ tocdepth_of toctrees = tocdepth_of (firstn 1 toctrees)
  /\ (is_ok (tocdepth_of toctrees) = false <->
      exists first rest,
        toctrees = first :: rest
        /\ forall z, get "maxdepth" first <> AInt z)
  /\ (toctrees = [] -> tocdepth_of toctrees = Ok ANone)
  /\ (forall first rest z,
        toctrees = first :: rest ->
        get "maxdepth" first = AInt z ->
        ((0 < z)%Z -> tocdepth_of toctrees = Ok (AInt z))
        /\ ((z <= 0)%Z -> tocdepth_of toctrees = Ok ANone)).
Proof.
  split; [|split; [|split; [|split]]];
    [| | |intros ->; reflexivity
     |intros first rest z -> Hz; simpl; rewrite Hz;
      destruct (Z.ltb_spec 0 z); split; intros; (reflexivity || lia)].
  - intros v. destruct toctrees as [|first rest]; simpl.
    + intros [= <-]. left. reflexivity.
    + destruct (get "maxdepth" first) as [|z|s]; try discriminate.
      destruct (Z.ltb_spec 0 z); intros [= <-]; [right; eauto | left; reflexivity].
  - destruct toctrees as [|first rest]; reflexivity.
  - split.
    + destruct toctrees as [|first rest]; simpl; [discriminate|].
      intros Hbad. exists first, rest. split; [reflexivity|].
      intros z Hz. rewrite Hz in Hbad. discriminate.
    + intros (first & rest & -> & Hno). simpl.
      destruct (get "maxdepth" first) as [|z|s]; try reflexivity.
      destruct (Hno z eq_refl).
Qed.

(** A document whose first toctree has no numeric [maxdepth] stops its unit
    before anything is assembled: [process_doc] raises, [docnames] is left
    as it was and nothing but the announcement is logged. *)
Theorem process_doc_bad_maxdepth (f : name_fmt) (num : nat) (docname : string)
    (b : builder) (doc : node) (e : exn) :
  get_doctree h docname = Ok doc ->
  tocdepth_of (traverse toctree doc) = Raise e ->
  process_doc h f num docname b =
    (set_trace (trace b ++ [EvInfo ("writing " +:+ docname +:+ " to " +:+
                                    format f num +:+ ".tex ... ")]) b,
     Raise e).
Proof.
  intros Hdoc Hdepth. unfold process_doc. run. rewrite Hdoc. simpl.
  rewrite Hdepth. reflexivity.
Qed.

(** [get_contentsname] leaves the builder alone; it gives the caption of
    the first toctree, in document order, that has one, [None] when no
    toctree has a caption, and raises what loading the document raises. *)
Theorem get_contentsname_first_caption (indexfile : string) (b : builder) :
  get_contentsname h indexfile b =
    (b,
     match get_doctree h indexfile with
     | Ok tree =>
         Ok match find (has_attr "caption") (traverse toctree tree) with
            | Some captioned => get "caption" captioned
            | None => ANone
            end
     | Raise e => Raise e
     end).
Proof.
  unfold get_contentsname. run.
  destruct (get_doctree h indexfile) as [tree|e]; [|reflexivity]. simpl.
  do 2 f_equal.
  induction (traverse toctree tree) as [|t rest IH]; simpl; [reflexivity|].
  destruct (has_attr "caption" t); [reflexivity | exact IH].
Qed.

(** The appendices are appended after the root content in the order of the
    list, each unchanged but for its [docname]; the first one that cannot be
    loaded raises its error; the builder is left alone. *)
Theorem append_appendices_in_order (apps : list string) (t : string)
    (a : gmap string attr) (cs : list node) (b : builder) :
  append_appendices h apps (Element t a cs) b =
    (b,
     match rmap_all (get_doctree h) apps with
     | Ok trees =>
         Ok (Element t a
               (cs ++ map (fun p => set_item "docname" (AStr (fst p)) (snd p))
                          (combine apps trees)))
     | Raise e => Raise e
     end).
Proof.
  revert cs. induction apps as [|docname rest IH]; intros cs; simpl.
  - rewrite app_nil_r. reflexivity.
  - run. destruct (get_doctree h docname) as [tree|e]; simpl; [|reflexivity].
    rewrite IH. destruct (rmap_all (get_doctree h) rest) as [trees|e]; simpl;
      [|reflexivity].
    rewrite <- app_assoc. reflexivity.
Qed.

(** For a root the host cannot load, [assemble_doctree] raises the host's
    error after it has replaced [docnames]: from then on the missing root
    and the appendices have URIs, and no other document has. *)
Theorem assemble_doctree_unknown_root (indexfile : string) (toctree_only : bool)
    (apps : list string) (b : builder) (e : exn) (docname : string) :
  get_doctree h indexfile = Raise e ->
  let r := assemble_doctree h indexfile toctree_only apps b in
  snd r = Raise e
  /\ trace (fst r) = trace b ++ [EvInfo (darkgreen h indexfile +:+ " ")]
  /\ get_target_uri (fst r) docname =
       (if bool_decide (docname ∈ indexfile :: apps) then Ok ("%" +:+ docname)
        else Raise NoUri).
Proof.
  intros Hdoc r. unfold r. rewrite (assemble_doctree_missing h _ _ _ _ _ Hdoc).
  cbn [fst snd]. split; [reflexivity|]. split; [reflexivity|].
  unfold get_target_uri. cbn [docnames set_trace set_docnames].
  destruct (bool_decide (docname ∈ indexfile :: apps)) eqn:E.
  - apply bool_decide_eq_true in E. rewrite bool_decide_eq_true_2; [reflexivity|].
    apply elem_of_list_to_set. exact E.
  - apply bool_decide_eq_false in E. rewrite bool_decide_eq_false_2; [reflexivity|].
    intros Hin. apply E. apply elem_of_list_to_set in Hin. exact Hin.
Qed.

#[local] Arguments assemble_doctree : simpl never.

(** Each unit is its own space of URIs: once [process_doc] has written the
    unit of a document (with a host whose inliner adds nothing to the set
    it is handed), that document has the URI ['%' + docname] and no other
    document has one. *)
Theorem process_doc_isolates_unit (f : name_fmt) (num : nat)
    (docname other : string) (b : builder) :
  (forall ds root tree, fst (inline_all_toctrees h ds root tree) = ds) ->
  doc_ok h (titles b) docname = true ->
  let r := process_doc h f num docname b in
  snd r = Ok (format f num)
  /\ get_target_uri (fst r) other =
       (if bool_decide (other = docname) then Ok ("%" +:+ docname)
        else Raise NoUri).
Proof.
  intros Hset Hok r. unfold r, process_doc, get_contentsname.
  unfold doc_ok in Hok.
  destruct (get_doctree h docname) as [doc|e] eqn:Hdoc; [|discriminate].
  apply andb_prop in Hok as [Hdepth Htree].
  destruct (tocdepth_of (traverse toctree doc)) as [depth|e] eqn:Hd;
    [|discriminate].
  run. rewrite ?Hd. simpl.
  rewrite (assemble_doctree_unit h _ _ _ Hdoc). simpl.
  destruct (unit_tree h (titles b) docname doc) as [tree|e]; [|discriminate].
  cbn [fst snd]. split; [reflexivity|].
  unfold get_target_uri.
  cbn [docnames set_trace set_docnames set_images fst snd]. rewrite Hset.
  destruct (bool_decide (other = docname)) eqn:E.
  - apply bool_decide_eq_true in E. subst other.
    rewrite bool_decide_eq_true_2; [reflexivity|].
    apply elem_of_union_l, elem_of_singleton. reflexivity.
  - apply bool_decide_eq_false in E.
    rewrite bool_decide_eq_false_2; [reflexivity|].
    intros [Hin%elem_of_singleton|Hin%elem_of_empty]%elem_of_union;
      contradiction.
Qed.

End Units.

Lemma process_doc_bad_maxdepth_witness :
  let site := {|
    all_docs := Demo.known;
    get_doctree := fun d => Ok (Element "document" ∅ [Element toctree ∅ []]);
    templates_render := templates_render Demo.site;
    inline_all_toctrees := inline_all_toctrees Demo.site;
    resolve_references := resolve_references Demo.site;
    post_process_images := post_process_images Demo.site;
    get_stylesheet := get_stylesheet Demo.site;
    gettext := gettext Demo.site;
    bold := bold Demo.site;
    darkgreen := darkgreen Demo.site;
    isfile := isfile Demo.site;
    package_dir := package_dir Demo.site;
    init_themes := init_themes Demo.site;
    new_theme := new_theme Demo.site;
    create_template_bridge := create_template_bridge Demo.site;
    templates_init := templates_init Demo.site;
    copyfile := copyfile Demo.site |} in
  let b := Demo.fresh (Demo.conf PNone ["intro"] [] PNone) in
  process_doc site (NameFmt "chap" 2) 1 "intro" b =
    (set_trace [EvInfo "writing intro to chap01.tex ... "] b,
     Raise (TypeError
       "'>' not supported between instances of 'NoneType' and 'int'")).
Proof.
  intros site b.
  apply (process_doc_bad_maxdepth site (NameFmt "chap" 2) 1 "intro" b
           (Element "document" ∅ [Element toctree ∅ []])); reflexivity.
Defined.

Lemma assemble_doctree_unknown_root_witness :
  let b := Demo.fresh (Demo.conf PNone ["intro"] [] PNone) in
  snd (assemble_doctree Demo.site "ghost" false ["api"] b) =
    Raise (Exn "IOError" "No such file or directory: ghost" None)
  /\ get_target_uri (fst (assemble_doctree Demo.site "ghost" false ["api"] b))
       "ghost" = Ok "%ghost".
Proof.
  intros b.
  destruct (assemble_doctree_unknown_root Demo.site "ghost" false ["api"] b
              (Exn "IOError" "No such file or directory: ghost" None) "ghost")
    as (Hraise & _ & Huri); [vm_compute; reflexivity|].
  split; [exact Hraise | exact Huri].
Defined.

Lemma process_doc_isolates_unit_witness :
  let b := Demo.fresh (Demo.conf PNone ["intro"; "threads"] [] PNone) in
  let r := process_doc Demo.site (NameFmt "chap" 2) 1 "intro" b in
  snd r = Ok "chap01"
  /\ get_target_uri (fst r) "threads" = Raise NoUri.
Proof.
  intros b r.
  apply (process_doc_isolates_unit Demo.site (NameFmt "chap" 2) 1
           "intro" "threads" b).
  - intros ds root tree. reflexivity.
  - vm_compute. reflexivity.
Defined.

(** ** More on pending markers *)

Section Markers.

Variable h : host.

Lemma flat_map_nil_inv {A B} (f : A -> list B) l :
  flat_map f l = [] -> Forall (fun x => f x = []) l.
Proof.
  induction l as [|x l IH]; simpl; [constructor|].
  intros [Hx Hl]%app_eq_nil. constructor; [exact Hx | apply IH, Hl].
Qed.

Section Titles.

Variable ts : option (list (string * string)).

Lemma replace_pending_unmarked n :
  traverse pending_xref n = [] -> replace_pending h ts n = [n].
Proof.
  induction n as [s|t a cs IH] using node_ind'; [reflexivity|].
  simpl. destruct (String.eqb t pending_xref); [discriminate|].
  simpl. intros Hcs%flat_map_nil_inv. do 2 f_equal.
  induction IH as [|c cs Hc _ IHcs]; [reflexivity|].
  inversion Hcs as [|? ? Hc0 Hcs0]; subst. simpl.
  rewrite (Hc Hc0), (IHcs Hcs0). reflexivity.
Qed.

(** The last step for a tree without markers, from the same fact about
    its nodes. *)
Ltac unmarked Hnone :=
  match type of Hnone with
  | traverse pending_xref ?tree = [] =>
      destruct tree as [?s|?t ?a ?cs]; [reflexivity|];
      let Hsame := fresh "Hsame" in
      pose proof (replace_pending_unmarked _ Hnone) as Hsame;
      simpl in Hnone, Hsame; unfold resolve_pending;
      destruct (String.eqb _ pending_xref); [discriminate|];
      simpl in Hnone; rewrite Hnone; simpl;
      injection Hsame as Hsame; rewrite Hsame; reflexivity
  end.

Lemma resolve_pending_unmarked tree :
  traverse pending_xref tree = [] -> resolve_pending h ts tree = Ok tree.
Proof. intros Hnone. unmarked Hnone. Qed.

(** A tree without pending markers goes through the rewriting unchanged. *)
Theorem resolve_pending_without_markers (tree : node) :
  traverse pending_xref tree = [] ->
  resolve_pending h ts tree = Ok tree.
Proof.
  intros Hnone. destruct tree as [s|t a cs]; [reflexivity|].
  pose proof (replace_pending_unmarked _ Hnone) as Hsame.
  simpl in Hnone, Hsame. unfold resolve_pending.
  destruct (String.eqb t pending_xref); [discriminate|].
  simpl in Hnone. rewrite Hnone. simpl.
  injection Hsame as Hsame. rewrite Hsame. reflexivity.
Qed.

(** The loop stops at the first marker whose body raises: the first in
    document order, the root itself when it is a marker. *)
Lemma resolve_pending_first tree m rest e :
  traverse pending_xref tree = m :: rest ->
  pending_newnodes h ts m = Raise e ->
  resolve_pending h ts tree = Raise e.
Proof.
  destruct tree as [s|t a cs]; simpl; [discriminate|].
  destruct (String.eqb t pending_xref); simpl.
  - intros [= <- _] ->. reflexivity.
  - intros -> Hm. simpl. rewrite Hm. reflexivity.
Qed.

End Titles.

(** *** The loop as the builder runs it: [titles] is not there *)

(** The body of the loop reads the two keys of the marker, then
    [self.titles]: without the attribute it raises for every marker. *)
Lemma pending_newnodes_absent t a cs :
  pending_newnodes h None (Element t a cs) =
    Raise (match a !! "refdocname", a !! "refsectname" with
           | None, _ => KeyError "refdocname"
           | Some _, None => KeyError "refsectname"
           | Some _, Some _ => no_titles
           end).
Proof.
  unfold pending_newnodes, getitem.
  destruct (a !! "refdocname"); [|reflexivity].
  destruct (a !! "refsectname"); reflexivity.
Qed.

Lemma pending_newnodes_raises m :
  exists e, pending_newnodes h None m = Raise e
            /\ (marker_ok m = true -> e = no_titles).
Proof.
  destruct m as [s|t a cs].
  - eexists. split; [reflexivity | discriminate].
  - rewrite pending_newnodes_absent. eexists. split; [reflexivity|].
    simpl. destruct (a !! "refdocname") as [[]|]; try discriminate.
    destruct (a !! "refsectname") as [[]|]; try discriminate. reflexivity.
Qed.

(** Without [titles], the rewriting returns for the trees that hold no
    pending marker, and for no other: it never replaces a marker.  The tree
    it returns is the one it was given. *)
Theorem resolve_pending_returns_iff_unmarked (tree : node) :
  (is_ok (resolve_pending h None tree) = true <->
   traverse pending_xref tree = [])
  /\ (forall tree', resolve_pending h None tree = Ok tree' -> tree' = tree).
Proof.
  destruct (traverse pending_xref tree) as [|m rest] eqn:E.
  - rewrite (resolve_pending_unmarked None tree E).
    split; [split; reflexivity|]. intros tree' [= <-]. reflexivity.
  - destruct (pending_newnodes_raises m) as (e & He & _).
    rewrite (resolve_pending_first None tree m rest e E He).
    split; [split; discriminate | discriminate].
Qed.

(** Without [titles], the first marker in document order decides the error
    of the rewriting, whatever follows it and whatever it holds below it:
    [KeyError] for [refdocname] when the marker lacks that key, else
    [KeyError] for [refsectname] when it lacks that one, else the
    [AttributeError] for [titles]. *)
Theorem resolve_pending_first_error (tree : node) (mt : string)
    (ma : gmap string attr) (mcs rest : list node) :
  traverse pending_xref tree = Element mt ma mcs :: rest ->
  resolve_pending h None tree =
    Raise (match ma !! "refdocname", ma !! "refsectname" with
           | None, _ => KeyError "refdocname"
           | Some _, None => KeyError "refsectname"
           | Some _, Some _ => no_titles
           end).
Proof.
  intros Hfirst.
  apply (resolve_pending_first None tree _ rest _ Hfirst).
  apply pending_newnodes_absent.
Qed.

(** *** No method assigns [titles] *)

Lemma logs_only_ret {A} (a : A) : logs_only (ret a).
Proof. intros b. exists (trace b). now destruct b. Qed.

Lemma logs_only_raise {A} (e : exn) : logs_only (@raise A e).
Proof. intros b. exists (trace b). now destruct b. Qed.

Lemma logs_only_gets {A} (f : builder -> A) : logs_only (gets f).
Proof. intros b. exists (trace b). now destruct b. Qed.

Lemma logs_only_emit e : logs_only (emit e).
Proof. intros b. eexists. reflexivity. Qed.

Lemma logs_only_bind {A B} (m : M A) (k : A -> M B) :
  logs_only m -> (forall a, logs_only (k a)) -> logs_only (bind m k).
Proof.
  intros Hm Hk b. unfold bind. destruct (Hm b) as [t Ht].
  destruct (m b) as [b1 [a|e]]; simpl in *; [|exists t; exact Ht].
  destruct (Hk a b1) as [t' Ht']. exists t'. rewrite Ht', Ht. reflexivity.
Qed.

Lemma logs_only_for_each {A} (l : list A) (body : A -> M unit) :
  (forall x, logs_only (body x)) -> logs_only (for_each l body).
Proof.
  intros Hbody. induction l as [|x l IH]; simpl.
  - apply logs_only_ret.
  - apply logs_only_bind; [apply Hbody | intros _; exact IH].
Qed.

Lemma logs_only_when cond (m : M unit) : logs_only m -> logs_only (when cond m).
Proof. intros Hm. destruct cond; [exact Hm | apply logs_only_ret]. Qed.

Lemma logs_only_copy src dst : logs_only (copy h src dst).
Proof.
  unfold copy. apply logs_only_bind; [apply logs_only_emit|]. intros _.
  destruct (copyfile h src dst); [apply logs_only_raise | apply logs_only_ret].
Qed.

Lemma logs_only_finish : logs_only (finish h).
Proof.
  unfold finish, copy_images, copy_additional_files, copy_logo,
    copy_static_files, info.
  repeat first
    [ apply logs_only_bind; [|intros ?]
    | apply logs_only_when
    | apply logs_only_for_each; intros ?
    | apply logs_only_gets
    | apply logs_only_emit
    | apply logs_only_copy
    | apply logs_only_raise
    | apply logs_only_ret
    | match goal with
      | |- logs_only (match ?x with _ => _ end) => destruct x
      | |- logs_only (if ?x then _ else _) => destruct x
      end ].
Qed.

(** Whether they return or raise, [init], [write], [assemble_doctree] and
    [finish] leave [titles] as they found it: a builder that starts without
    the attribute never gets it. *)
Lemma titles_unassigned b :
  titles (fst (init h b)) = titles b
  /\ titles (fst (write h b)) = titles b
  /\ (forall indexfile toctree_only apps,
        titles (fst (assemble_doctree h indexfile toctree_only apps b))
        = titles b)
  /\ titles (fst (finish h b)) = titles b.
Proof.
  split; [apply init_run|].
  split; [apply write_setup|].
  split.
  - intros indexfile toctree_only apps.
    unfold assemble_doctree. run.
    destruct (get_doctree h indexfile) as [tree|e]; simpl; [|reflexivity].
    match goal with
    | |- context [append_appendices h apps ?t0 ?b0] =>
        assert (Happ : forall l t1 b1,
                  titles (fst (append_appendices h l t1 b1)) = titles b1);
        [|pose proof (Happ apps t0 b0) as Ht;
          destruct (append_appendices h apps t0 b0) as [b1 [t1|e]]]
    end.
    + induction l as [|d l IH]; intros t1 b1; simpl; [reflexivity|].
      run. destruct (get_doctree h d); simpl; [apply IH | reflexivity].
    + simpl in *. exact Ht.
    + simpl in *. exact Ht.
  - destruct (logs_only_finish b) as [t ->]. reflexivity.
Qed.

(** *** The markers in a run *)

(** C5 (as the code has it).  The loop over the pending markers reads
    [self.titles], an attribute that nothing assigns.  On a builder without
    it, a unit whose tree still holds a pending marker after the host's
    resolution is not rewritten: [assemble_doctree] raises at the first
    marker, with the [AttributeError] for [titles] when that marker names
    its target document and section; the attribute is still missing
    afterwards; [process_doc] raises without writing the unit; and [write]
    raises when the unit is one of its chapters or appendices. *)
Theorem pending_markers_raise (b : builder) (docname : string)
    (doc m : node) (rest : list node) :
  titles b = None ->
  get_doctree h docname = Ok doc ->
  traverse pending_xref (resolved_tree h docname doc) = m :: rest ->
  let run := assemble_doctree h docname false [] b in
  let data :=
    document_data b ++ List.filter (known h) (pearson_chapters (config b)) in
  is_ok (snd run) = false
  /\ (marker_ok m = true -> snd run = Raise no_titles)
  /\ titles (fst run) = None
  /\ (forall f num,
        is_ok (snd (process_doc h f num docname b)) = false
        /\ outputs (trace (fst (process_doc h f num docname b)))
           = outputs (trace b))
  /\ (In docname (data ++ latex_appendices (config b)) ->
      is_ok (snd (write h b)) = false).
Proof.
  intros Ht Hdoc Hfirst run data.
  destruct (pending_newnodes_raises m) as (e & He & Hok).
  assert (Htree : unit_tree h None docname doc = Raise e).
  { apply (resolve_pending_first None _ m rest e Hfirst He). }
  assert (Hbad : doc_ok h (titles b) docname = false).
  { unfold doc_ok. rewrite Ht, Hdoc, Htree. apply andb_false_r. }
  assert (Hrun : snd run = Raise e).
  { unfold run. rewrite (assemble_doctree_unit h _ _ _ Hdoc), Ht. exact Htree. }
  split; [rewrite Hrun; reflexivity|].
  split; [intros Hm; rewrite Hrun, (Hok Hm); reflexivity|].
  split.
  { unfold run. rewrite (assemble_doctree_unit h _ _ _ Hdoc). exact Ht. }
  split.
  { intros f num.
    destruct (performs_process_doc h f num docname b) as (_ & Hgood & Hout).
    rewrite Hbad in Hgood. split; [exact Hgood|].
    destruct (snd (process_doc h f num docname b)); [discriminate|].
    destruct Hout as (done & rest' & Hplan & Hrest & ->).
    destruct done as [|o done]; [apply app_nil_r|].
    destruct done; destruct rest'; try discriminate. congruence. }
  intros Hin. destruct (write_run h b) as (-> & _). fold data.
  unfold host_ok. apply in_app_iff in Hin as [Hin|Hin];
    rewrite (forallb_false _ _ docname Hin Hbad);
    cbn [andb]; rewrite ?andb_false_r; reflexivity.
Qed.

End Markers.

Lemma pending_markers_raise_witness :
  let b := Demo.fresh (Demo.conf PNone ["intro"; "xref"] [] PNone) in
  snd (assemble_doctree Demo.site "xref" false [] b) = Raise no_titles
  /\ is_ok (snd (write Demo.site b)) = false.
Proof.
  intros b.
  destruct (pending_markers_raise Demo.site b "xref" Demo.doc_with_marker
              Demo.marker [] eq_refl eq_refl eq_refl)
    as (_ & Hm & _ & _ & Hw).
  split; [apply Hm; reflexivity|].
  apply Hw. vm_compute. right. left. reflexivity.
Defined.

(** The run of the witness: the first chapter is written, the second one
    raises, the book is not rendered. *)
Example pending_markers_raise_run :
  let b := Demo.fresh (Demo.conf PNone ["intro"; "xref"] [] PNone) in
  snd (write Demo.site b) = Raise no_titles
  /\ outputs (trace (fst (write Demo.site b))) =
       front_matter b ++ [OutUnit "out/chap01.tex" "intro"].
Proof. vm_compute. split; reflexivity. Qed.

Lemma resolve_pending_without_markers_witness :
  resolve_pending Demo.site None
    (Element "document" ∅ [Element "paragraph" ∅ [Text "plain"]])
  = Ok (Element "document" ∅ [Element "paragraph" ∅ [Text "plain"]]).
Proof.
  apply (resolve_pending_without_markers Demo.site None).
  reflexivity.
Defined.

Example resolve_pending_returns_iff_unmarked_run :
  is_ok (resolve_pending Demo.site None (Demo.doc_of "intro")) = true
  /\ is_ok (resolve_pending Demo.site None (Demo.doc_of "xref")) = false.
Proof. split; reflexivity. Qed.

(** The outer marker is well formed and the inner one has no target: the
    outer one comes first, and the error is the one for [titles]. *)
Lemma resolve_pending_first_error_witness :
  resolve_pending Demo.site None
    (Element "document" ∅
       [Element pending_xref
          {[ "refdocname" := AStr "lib/os"; "refsectname" := AStr "Files" ]}
          [Element pending_xref ∅ []]])
  = Raise no_titles.
Proof.
  exact (resolve_pending_first_error Demo.site
    (Element "document" ∅
       [Element pending_xref
          {[ "refdocname" := AStr "lib/os"; "refsectname" := AStr "Files" ]}
          [Element pending_xref ∅ []]])
    pending_xref
    {[ "refdocname" := AStr "lib/os"; "refsectname" := AStr "Files" ]}
    [Element pending_xref ∅ []] [Element pending_xref ∅ []] eq_refl).
Defined.

(** A first marker without section name. *)
Example resolve_pending_first_error_key :
  resolve_pending Demo.site None
    (Element "document" ∅
       [Element pending_xref {[ "refdocname" := AStr "lib/os" ]} [];
        Demo.marker])
  = Raise (KeyError "refsectname").
Proof. reflexivity. Qed.

(** ** More on the finish phase *)

Section FinishMore.

Variable h : host.

Lemma set_trace_same b : set_trace (trace b) b = b.
Proof. destruct b; reflexivity. Qed.

Lemma emits_ret {A} (a : A) b : emits (ret a) b [] a.
Proof. unfold emits, ret. rewrite app_nil_r, set_trace_same. reflexivity. Qed.

Lemma emits_gets {A} (f : builder -> A) b : emits (gets f) b [] (f b).
Proof. unfold emits, gets. rewrite app_nil_r, set_trace_same. reflexivity. Qed.

Lemma emits_info msg b : emits (info msg) b [EvInfo msg] tt.
Proof. reflexivity. Qed.

Lemma emits_bind {A B} (m : M A) (k : A -> M B) b ev1 ev2 a c :
  emits m b ev1 a ->
  emits (k a) (set_trace (trace b ++ ev1) b) ev2 c ->
  emits (bind m k) b (ev1 ++ ev2) c.
Proof.
  unfold emits, bind. intros -> ->. simpl. rewrite app_assoc. reflexivity.
Qed.

Lemma emits_for_each {A} (body : A -> M unit) (events : A -> list event) b l :
  (forall x t, emits (body x) (set_trace t b) (events x) tt) ->
  forall t, emits (for_each l body) (set_trace t b) (flat_map events l) tt.
Proof.
  intros Hbody. induction l as [|x l IH]; intros t; simpl.
  - apply emits_ret.
  - eapply emits_bind; [apply Hbody|]. apply IH.
Qed.

Section AllCopied.

Hypothesis copyfile_ok : forall src dst, copyfile h src dst = None.

Lemma emits_copy src dst b : emits (copy h src dst) b [EvCopy src dst] tt.
Proof. unfold emits, copy. run. rewrite copyfile_ok. reflexivity. Qed.

Lemma emits_copy_images b : emits (copy_images h) b (images_events h b) tt.
Proof.
  unfold copy_images, images_events.
    eapply (emits_bind _ _ _ [] _); [apply emits_gets|]. cbv beta.
  rewrite app_nil_r, set_trace_same.
  destruct (bool_decide (images b = [])); simpl; [apply emits_ret|].
  change (?x :: ?l ++ [?y]) with ([x] ++ l ++ [y]).
  eapply emits_bind; [apply emits_info|].
  eapply emits_bind; [|apply emits_info].
  apply emits_for_each. intros entry t.
  change [?x; ?y] with ([x] ++ [] ++ [y]).
  eapply emits_bind; [apply emits_info|].
  eapply emits_bind; [apply emits_gets|]. apply emits_copy.
Qed.

Lemma emits_copy_additional_files b :
  emits (copy_additional_files h) b (additional_events h b) tt.
Proof.
  unfold copy_additional_files, additional_events.
  eapply (emits_bind _ _ _ [] _); [apply emits_gets|]. cbv beta.
  rewrite app_nil_r, set_trace_same.
  destruct (bool_decide (latex_additional_files (config b) = [])); simpl;
    [apply emits_ret|].
  change (?x :: ?l ++ [?y]) with ([x] ++ l ++ [y]).
  eapply emits_bind; [apply emits_info|].
  eapply emits_bind; [|apply emits_info].
  apply emits_for_each. intros filename t.
  change [?x; ?y] with ([x] ++ [] ++ [y]).
  eapply emits_bind; [apply emits_info|].
  eapply emits_bind; [apply emits_gets|]. apply emits_copy.
Qed.

Lemma emits_copy_logo b :
  logo_usable h b = true -> emits (copy_logo h) b (logo_events h b) tt.
Proof.
  unfold logo_usable, copy_logo, logo_events, logo_copies. intros Husable.
  eapply (emits_bind _ _ _ [] _); [apply emits_gets|]. cbv beta.
  rewrite app_nil_r, set_trace_same.
  destruct (latex_logo (config b)) as [|flag|z|logo].
  1-3: apply negb_true_iff in Husable; rewrite Husable; apply emits_ret.
  destruct (truthy (PStr logo)); simpl in *; [|apply emits_ret].
  rewrite Husable. simpl.
  destruct (isfile h (path_join (outdir b) (path_basename logo))); simpl;
    [apply emits_ret | apply emits_copy].
Qed.

Lemma emits_copy_static_files b :
  emits (copy_static_files h) b (static_events h b) tt.
Proof.
  unfold copy_static_files, static_events.
  eapply (emits_bind _ _ _ [] _); [apply emits_gets|]. cbv beta.
  rewrite app_nil_r, set_trace_same.
  destruct (theme b) as [th|]; [|apply emits_ret].
  change (?x :: ?l) with ([x] ++ l).
  eapply emits_bind; [apply emits_info|].
  apply emits_for_each. intros entry t.
  change [?x; ?y] with ([x] ++ [y]).
  eapply emits_bind; [apply emits_info|]. reflexivity.
Qed.

Lemma copies_app tr tr' : copies (tr ++ tr') = copies tr ++ copies tr'.
Proof. apply flat_map_app. Qed.

Lemma copies_copy_loop {A} (label : A -> string) (pair : A -> string * string) l :
  copies (flat_map (fun x => [EvInfo (label x);
                              EvCopy (fst (pair x)) (snd (pair x))]) l)
    = map pair l
  /\ static_copies (flat_map (fun x => [EvInfo (label x);
                              EvCopy (fst (pair x)) (snd (pair x))]) l) = [].
Proof.
  induction l as [|x l [IH1 IH2]]; [split; reflexivity|].
  split; [|exact IH2]. cbn [flat_map app copies map].
  f_equal; [destruct (pair x); reflexivity | exact IH1].
Qed.

Lemma copies_images_events b :
  copies (images_events h b) = map (image_copy b) (images b)
  /\ static_copies (images_events h b) = [].
Proof.
  unfold images_events. destruct (bool_decide (images b = [])) eqn:E.
  - apply bool_decide_eq_true in E. rewrite E. split; reflexivity.
  - change (?x :: ?l ++ ?r) with ([x] ++ l ++ r).
    rewrite !copies_app, !static_copies_app.
    destruct (copies_copy_loop (fun entry : string * string => " " +:+ fst entry)
                (image_copy b) (images b)) as [-> ->].
    split; [apply app_nil_r | reflexivity].
Qed.

Lemma copies_additional_events b :
  copies (additional_events h b)
    = map (additional_copy b) (latex_additional_files (config b))
  /\ static_copies (additional_events h b) = [].
Proof.
  unfold additional_events.
  destruct (bool_decide (latex_additional_files (config b) = [])) eqn:E.
  - apply bool_decide_eq_true in E. rewrite E. split; reflexivity.
  - change (?x :: ?l ++ ?r) with ([x] ++ l ++ r).
    rewrite !copies_app, !static_copies_app.
    destruct (copies_copy_loop (fun filename : string => " " +:+ filename)
                (additional_copy b) (latex_additional_files (config b)))
      as [-> ->].
    split; [apply app_nil_r | reflexivity].
Qed.

Lemma copies_logo_events b :
  copies (logo_events h b) = logo_copies h b
  /\ static_copies (logo_events h b) = [].
Proof.
  unfold logo_events. induction (logo_copies h b) as [|[src dst] l [IH1 IH2]];
    [split; reflexivity|].
  split; [simpl; f_equal; exact IH1 | exact IH2].
Qed.

Lemma copies_static_events b :
  copies (static_events h b) = []
  /\ static_copies (static_events h b) = theme_entries b.
Proof.
  unfold static_events, theme_entries. destruct (theme b) as [th|];
    [|split; reflexivity].
  cbn [copies static_copies flat_map app].
  induction (rev (get_dirchain th)) as [|x l [IH1 IH2]]; [split; reflexivity|].
  split; [exact IH1|]. cbn [map flat_map app]. f_equal. exact IH2.
Qed.

(** When every copy goes through and the logo, if one is configured,
    exists, [finish] returns, and it copies in two stages: first the
    images, the additional files and the logo (the logo only when the
    output directory does not have it yet), then, after all of them, the
    static directories of the theme chain, base theme first, so that the
    theme's own files come last. *)
Theorem finish_copies_then_statics (b : builder) :
  logo_usable h b = true ->
  exists first last,
    finish h b = (set_trace (trace b ++ first ++ last) b, Ok tt)
    /\ copies first =
         map (image_copy b) (images b)
         ++ map (additional_copy b) (latex_additional_files (config b))
         ++ logo_copies h b
    /\ static_copies first = []
    /\ copies last = []
    /\ static_copies last = theme_entries b.
Proof.
  intros Husable.
  exists (images_events h b ++ additional_events h b ++ logo_events h b),
         (static_events h b ++ [EvInfo "done"]).
  destruct (copies_images_events b) as [Ci Si].
  destruct (copies_additional_events b) as [Ca Sa].
  destruct (copies_logo_events b) as [Cl Sl].
  destruct (copies_static_events b) as [Cs Ss].
  split.
  { assert (H : emits (finish h) b
                  (images_events h b ++ additional_events h b ++ logo_events h b
                   ++ static_events h b ++ [EvInfo "done"]) tt).
    { unfold finish.
      eapply emits_bind; [exact (emits_copy_images b)|].
      eapply emits_bind; [exact (emits_copy_additional_files (set_trace _ b))|].
      eapply emits_bind; [exact (emits_copy_logo (set_trace _ b) Husable)|].
      eapply emits_bind; [exact (emits_copy_static_files (set_trace _ b))|].
      apply emits_info. }
    unfold emits in H. rewrite H. rewrite <- !app_assoc. reflexivity. }
  rewrite !copies_app, !static_copies_app, Ci, Ca, Cl, Cs, Si, Sa, Sl, Ss.
  repeat split. rewrite app_nil_r. reflexivity.
Qed.

End AllCopied.

Lemma bind_raises {A B} (m : M A) (k : A -> M B) b b' e :
  m b = (b', Raise e) -> bind m k b = (b', Raise e).
Proof. intros E. unfold bind. rewrite E. reflexivity. Qed.

Lemma copy_image_step_run entry b t :
  copy_image_step h entry (set_trace t b) =
    (set_trace (t ++ [EvInfo (" " +:+ fst entry);
                      EvCopy (fst (image_copy b entry)) (snd (image_copy b entry))]) b,
     match copyfile h (fst (image_copy b entry)) (snd (image_copy b entry)) with
     | Some e => Raise e
     | None => Ok tt
     end).
Proof.
  unfold copy_image_step, copy, image_copy. run.
  destruct (copyfile h _ _); simpl; rewrite <- !app_assoc; reflexivity.
Qed.

Lemma copy_loop_fails before entry after e b :
  (forall x, In x before ->
     copyfile h (fst (image_copy b x)) (snd (image_copy b x)) = None) ->
  copyfile h (fst (image_copy b entry)) (snd (image_copy b entry)) = Some e ->
  forall t,
    for_each (before ++ entry :: after) (copy_image_step h) (set_trace t b)
    = (set_trace (t ++ flat_map (fun x => [EvInfo (" " +:+ fst x);
                                           EvCopy (fst (image_copy b x))
                                                  (snd (image_copy b x))])
                                (before ++ [entry])) b,
       Raise e).
Proof.
  intros Hbefore Hfail. induction before as [|x before IH]; intros t.
  - cbn [app for_each]. unfold bind. rewrite copy_image_step_run, Hfail.
    cbn [flat_map app]. reflexivity.
  - cbn [app for_each]. unfold bind at 1. rewrite copy_image_step_run.
    rewrite (Hbefore x (or_introl eq_refl)).
    rewrite IH by (intros y Hy; apply Hbefore; right; exact Hy).
    cbn [flat_map app]. rewrite <- !app_assoc. reflexivity.
Qed.

(** The first copy that fails ends [finish]: its error is raised, the
    images before it have been copied, and nothing after it is touched, no
    additional file, no logo and no static file of the theme. *)
Theorem finish_stops_at_failed_image (b : builder)
    (before after : list (string * string)) (entry : string * string)
    (e : exn) :
  images b = before ++ entry :: after ->
  (forall x, In x before ->
     copyfile h (fst (image_copy b x)) (snd (image_copy b x)) = None) ->
  copyfile h (fst (image_copy b entry)) (snd (image_copy b entry)) = Some e ->
  exists b',
    finish h b = (b', Raise e)
    /\ copies (trace b') =
         copies (trace b) ++ map (image_copy b) (before ++ [entry])
    /\ static_copies (trace b') = static_copies (trace b).
Proof.
  intros Himages Hbefore Hfail. unfold finish, copy_images.
  eexists. split.
  { apply bind_raises. unfold bind at 1, gets at 1. cbv beta iota.
    rewrite Himages. rewrite bool_decide_eq_false_2
      by (destruct before; discriminate).
    simpl negb. unfold when. unfold bind at 1. unfold info at 1, emit, modify.
    cbv beta iota. apply bind_raises.
    apply (copy_loop_fails before entry after e b Hbefore Hfail). }
  cbn [trace set_trace fst].
  rewrite !copies_app, !static_copies_app. cbn [copies static_copies flat_map app].
  rewrite !app_nil_r.
  pose proof (copies_copy_loop (fun x : string * string => " " +:+ fst x)
                (image_copy b)) as H.
  destruct (H (before ++ [entry])) as [-> ->]. rewrite app_nil_r.
  split; reflexivity.
Qed.

End FinishMore.

Lemma finish_copies_then_statics_witness :
  let b := Demo.fresh (Demo.conf PNone ["intro"] [] (PStr "cover.png")) in
  exists first last,
    finish Demo.site b = (set_trace (first ++ last) b, Ok tt)
    /\ copies first =
         [("src/fig.png", "out/fig.png");
          ("conf/extra/preamble.tex", "out/preamble.tex");
          ("conf/cover.png", "out/cover.png")]
    /\ static_copies first = []
    /\ copies last = []
    /\ static_copies last =
         [("themes/basic/static", "out"); ("themes/pearson/static", "out")].
Proof.
  intros b.
  apply (finish_copies_then_statics Demo.site (fun src dst => eq_refl) b).
  reflexivity.
Defined.

(** The second of two images cannot be read. *)
Lemma finish_stops_at_failed_image_witness :
  let site := {|
    all_docs := Demo.known;
    get_doctree := get_doctree Demo.site;
    templates_render := templates_render Demo.site;
    inline_all_toctrees := inline_all_toctrees Demo.site;
    resolve_references := resolve_references Demo.site;
    post_process_images := post_process_images Demo.site;
    get_stylesheet := get_stylesheet Demo.site;
    gettext := gettext Demo.site;
    bold := bold Demo.site;
    darkgreen := darkgreen Demo.site;
    isfile := isfile Demo.site;
    package_dir := package_dir Demo.site;
    init_themes := init_themes Demo.site;
    new_theme := new_theme Demo.site;
    create_template_bridge := create_template_bridge Demo.site;
    templates_init := templates_init Demo.site;
    copyfile := fun src dst =>
      if String.eqb src "src/lost.png"
      then Some (Exn "IOError" "No such file or directory: src/lost.png" None)
      else None |} in
  let b := set_images [("fig.png", "fig.png"); ("lost.png", "lost.png");
                       ("last.png", "last.png")]
             (Demo.fresh (Demo.conf PNone ["intro"] [] PNone)) in
  exists b',
    finish site b =
      (b', Raise (Exn "IOError" "No such file or directory: src/lost.png" None))
    /\ copies (trace b') =
         [("src/fig.png", "out/fig.png"); ("src/lost.png", "out/lost.png")]
    /\ static_copies (trace b') = [].
Proof.
  intros site b.
  apply (finish_stops_at_failed_image site b [("fig.png", "fig.png")]
           [("last.png", "last.png")] ("lost.png", "lost.png")).
  - reflexivity.
  - intros x [<-|[]]. reflexivity.
  - reflexivity.
Defined.

(** ** No rollback, and the toctree-only document *)

Section Rest.

Variable h : host.

Lemma written_chapter_warnings chapters :
  written (chapter_warnings h chapters) = [].
Proof.
  unfold chapter_warnings. destruct chapters as [|c rest]; [reflexivity|].
  induction (List.filter (fun chap => negb (known h chap)) (c :: rest));
    simpl; auto.
Qed.

(** Nothing is rolled back: when the first template, [half-title.tex],
    fails to render, [write] raises with the style file already written,
    and nothing else. *)
Theorem write_stops_at_half_title (b : builder) (err : exn) :
  templates_render h "half-title.tex" (front_context (config b)) = Raise err ->
  is_ok (snd (write h b)) = false
  /\ written (trace (fst (write h b))) =
       written (trace b) ++ [path_join (outdir b) "pygments.sty"].
Proof.
  intros Hfail. unfold write.
  rewrite (bind_ok _ _ _ _ _ (init_chapters_run h b)).
  unfold bind at 1, gets at 1. cbv beta iota.
  unfold bind at 1, _write_pygments_stylesheet. run.
  unfold _render_template. run.
  unfold front_context in Hfail. rewrite Hfail.
  destruct (exc_lineno err); run; (split; [reflexivity|]);
    rewrite !written_app, written_chapter_warnings; simpl;
    rewrite !app_nil_r; reflexivity.
Qed.

Lemma traverse_self cls t a cs :
  String.eqb t cls = true ->
  traverse cls (Element t a cs) = Element t a cs :: flat_map (traverse cls) cs.
Proof. intros Ht. simpl. rewrite Ht. reflexivity. Qed.

Lemma traverse_of_class cls n : forall m,
  In m (traverse cls n) -> exists a cs, m = Element cls a cs.
Proof.
  induction n as [s|t a cs IH] using node_ind'; intros m; simpl; [tauto|].
  rewrite in_app_iff. intros [Hm|Hm].
  - destruct (String.eqb_spec t cls) as [->|]; [|destruct Hm].
    destruct Hm as [<-|[]]. eauto.
  - apply in_flat_map in Hm as (c & Hc & Hm).
    rewrite List.Forall_forall in IH. apply (IH c Hc m Hm).
Qed.

(** The document built for [toctree_only] holds one section with the
    placeholder title and the toctrees of the tree: every toctree of the
    tree is in it, and whatever else it holds of the tree sits below one of
    those toctrees; the content outside the toctrees is left out. *)
Theorem toctree_document_keeps_toctrees (tree : node) (cls : string) :
  (forall t, In t (traverse toctree tree) ->
             In t (traverse toctree (toctree_document tree)))
  /\ (cls <> "document" -> cls <> "section" -> cls <> "title" ->
      forall n, In n (traverse cls (toctree_document tree)) ->
                exists t, In t (traverse toctree tree) /\ In n (traverse cls t)).
Proof.
  split.
  - intros t Ht. unfold toctree_document.
    cbn [traverse flat_map String.eqb Ascii.eqb Bool.eqb toctree app].
    rewrite app_nil_r. apply in_flat_map. exists t. split; [exact Ht|].
    destruct (traverse_of_class _ _ _ Ht) as (a & cs & ->).
    rewrite traverse_self by apply String.eqb_refl. left. reflexivity.
  - intros Hd Hs Ht n. unfold toctree_document.
    cbn [traverse flat_map].
    destruct (String.eqb_spec "document" cls) as [E|_]; [congruence|].
    destruct (String.eqb_spec "section" cls) as [E|_]; [congruence|].
    destruct (String.eqb_spec "title" cls) as [E|_]; [congruence|].
    cbn [app]. rewrite !app_nil_r.
    intros Hn%in_flat_map. exact Hn.
Qed.

End Rest.

Lemma write_stops_at_half_title_witness :
  let site := {|
    all_docs := Demo.known;
    get_doctree := get_doctree Demo.site;
    templates_render := fun name ctx =>
      Raise (Exn "TemplateSyntaxError" "unexpected end of template" (Some 12%Z));
    inline_all_toctrees := inline_all_toctrees Demo.site;
    resolve_references := resolve_references Demo.site;
    post_process_images := post_process_images Demo.site;
    get_stylesheet := get_stylesheet Demo.site;
    gettext := gettext Demo.site;
    bold := bold Demo.site;
    darkgreen := darkgreen Demo.site;
    isfile := isfile Demo.site;
    package_dir := package_dir Demo.site;
    init_themes := init_themes Demo.site;
    new_theme := new_theme Demo.site;
    create_template_bridge := create_template_bridge Demo.site;
    templates_init := templates_init Demo.site;
    copyfile := copyfile Demo.site |} in
  let b := Demo.fresh (Demo.conf PNone ["intro"] [] PNone) in
  is_ok (snd (write site b)) = false
  /\ written (trace (fst (write site b))) = ["out/pygments.sty"].
Proof.
  intros site b.
  apply (write_stops_at_half_title site b
           (Exn "TemplateSyntaxError" "unexpected end of template" (Some 12%Z))).
  reflexivity.
Defined.
